(** * Node-configuration derivation of the Orbit SDK (Avail flavour)

    A shallow embedding of [prepareNodeConfig] and of its two local helpers
    [sanitizePrivateKey] and [getDisableBlobReader], followed by the
    properties of the derivation that the specification states.  The
    example script that calls the derivation is embedded as far as it
    prepares the optional inputs, with the properties of that preparation
    and of its composition with the derivation.

    Conventions of the embedding.
    - A TypeScript [number] that holds an identifier, a port or a block
      number is a [Z]; a [string] is a [string]; a [boolean] is a [bool].
    - An optional property [k?: string] is an [option string]: [None] is
      the JavaScript [undefined].  An object key that is not written and a
      key written with the value [undefined] read the same and are both
      [None].
    - [throw new Error(msg)] is the outcome [Throw (mkError msg)], a normal
      [return v] is [Return v].
    - The object literal [config] is built once and then mutated by three
      guarded assignments; the embedding threads the document through the
      same three steps, in the same order. *)

From Stdlib Require Import String Ascii ZArith List Bool Lia.
From Stdlib Require Import DecimalString DecimalZ.
Import ListNotations.

Local Open Scope Z_scope.
Local Open Scope string_scope.

(** ** The fragment of JavaScript the derivation uses *)

Module JS.

(** [ToBoolean] on a string: only the empty string is falsy. *)
Definition truthy_string (s : string) : bool :=
  match s with
  | EmptyString => false
  | String _ _ => true
  end.

(** [ToBoolean] on a [string | undefined]: [undefined] and the empty
    string are falsy, every other string is truthy. *)
Definition truthy (v : option string) : bool :=
  match v with
  | None => false
  | Some s => truthy_string s
  end.

(** [v ?? d]: the right operand is taken only for [undefined]. *)
Definition nullish (v : option string) (d : string) : string :=
  match v with
  | None => d
  | Some s => s
  end.

(** [s.startsWith(p)]. *)
Definition startsWith (s p : string) : bool := String.prefix p s.

(** [s.slice(n)] for a non-negative [n]: [s] without its first [n]
    characters, the empty string when [s] is shorter. *)
Fixpoint slice (s : string) (n : nat) : string :=
  match n, s with
  | O, _ => s
  | S _, EmptyString => EmptyString
  | S n', String _ s' => slice s' n'
  end.

(** The double-quote character, for messages that contain it. *)
Definition dquote : string := String (ascii_of_nat 34) EmptyString.

End JS.

(** ** Outcomes *)

Inductive Error : Type :=
| mkError (message : string).

Inductive result (A : Type) : Type :=
| Throw (e : Error)
| Return (a : A).

Arguments Throw {A} e.
Arguments Return {A} a.

(** An optional sub-block of a document is present when its key holds an
    object. *)
Definition present {A : Type} (o : option A) : Prop := o <> None.

(** ** Input types *)

(** [./types/FallbackS3Config.ts] *)
Record FallbackS3Config : Type := {
  enable : bool;
  accessKey : option string;
  bucket : option string;
  objectPrefix : option string;
  region : option string;
  secretKey : option string
}.

(** The members of [CoreContracts] that the derivation reads. *)
Record CoreContracts : Type := {
  bridge : string;
  inbox : string;
  sequencerInbox : string;
  rollup : string;
  validatorUtils : string;
  validatorWalletCreator : string;
  deployedAtBlockNumber : Z
}.

(** A parent chain is named by its numeric chain id. *)
Definition ParentChainId : Type := Z.

(** ** The output document

    One record per nested object of the literal in [prepareNodeConfig];
    a hyphenated key [a-b] is the field [a_b], prefixed by its block where
    two blocks use the same key. *)

Record NodeConfigChain : Type := {
  chain_info_json : string;
  chain_name : string
}.

Record NodeConfigConnection : Type := {
  connection_url : string
}.

Record NodeConfigBlobClient : Type := {
  beacon_url : string
}.

Record NodeConfigParentChain : Type := {
  pc_connection : NodeConfigConnection;
  pc_blob_client : option NodeConfigBlobClient
}.

Record NodeConfigHttp : Type := {
  http_addr : string;
  http_port : Z;
  http_vhosts : list string;
  http_corsdomain : list string;
  http_api : list string
}.

Record NodeConfigDelayedSequencer : Type := {
  ds_enable : bool;
  ds_use_merge_finality : bool;
  ds_finalize_distance : Z
}.

Record NodeConfigWallet : Type := {
  private_key : string
}.

Record NodeConfigBatchPoster : Type := {
  bp_max_size : Z;
  bp_enable : bool;
  bp_parent_chain_wallet : NodeConfigWallet
}.

Record NodeConfigStaker : Type := {
  staker_enable : bool;
  staker_strategy : string;
  staker_parent_chain_wallet : NodeConfigWallet
}.

Record NodeConfigDangerous : Type := {
  no_sequencer_coordinator : bool;
  disable_blob_reader : bool
}.

(** The fallback block is [{enable: false}] or the seven-key object of the
    last assignment; the keys of the second form are [None] in the first. *)
Record NodeConfigFallbackS3 : Type := {
  fs3_enable : bool;
  fs3_access_key : option string;
  fs3_bucket : option string;
  fs3_object_prefix : option string;
  fs3_region : option string;
  fs3_secret_key : option string;
  fs3_discard_after_timeout : option bool
}.

Record NodeConfigAvailBridge : Type := {
  avail_bridge_api_url : string;
  vectorx_address : string;
  arbsepolia_rpc : string
}.

Record NodeConfigAvail : Type := {
  avail_enable : bool;
  avail_seed : string;
  avail_api_url : string;
  avail_app_id : Z;
  avail_timeout : string;
  fallback_s3_service_config : NodeConfigFallbackS3;
  avail_bridge_config : NodeConfigAvailBridge
}.

Record NodeConfigRestAggregator : Type := {
  rest_enable : bool;
  rest_urls : list string
}.

Record NodeConfigRpcAggregator : Type := {
  rpc_enable : bool;
  rpc_assumed_honest : Z
}.

Record NodeConfigDataAvailability : Type := {
  da_enable : bool;
  da_sequencer_inbox_address : string;
  da_parent_chain_node_url : string;
  da_rest_aggregator : NodeConfigRestAggregator;
  da_rpc_aggregator : NodeConfigRpcAggregator
}.

Record NodeConfigNode : Type := {
  node_sequencer : bool;
  node_delayed_sequencer : NodeConfigDelayedSequencer;
  node_batch_poster : NodeConfigBatchPoster;
  node_staker : NodeConfigStaker;
  node_dangerous : NodeConfigDangerous;
  node_avail : NodeConfigAvail;
  node_data_availability : option NodeConfigDataAvailability
}.

Record NodeConfigExecSequencer : Type := {
  es_enable : bool;
  es_max_tx_data_size : Z;
  es_max_block_speed : string
}.

Record NodeConfigCaching : Type := {
  archive : bool
}.

Record NodeConfigExecution : Type := {
  forwarding_target : string;
  exec_sequencer : NodeConfigExecSequencer;
  exec_caching : NodeConfigCaching
}.

Record NodeConfig : Type := {
  chain : NodeConfigChain;
  parent_chain : NodeConfigParentChain;
  http : NodeConfigHttp;
  node : NodeConfigNode;
  execution : NodeConfigExecution
}.

(** *** Paths into the document *)

(** [config['parent-chain']['blob-client']] *)
Definition blobClient (config : NodeConfig) : option NodeConfigBlobClient :=
  pc_blob_client (parent_chain config).

(** [config.node['data-availability']] *)
Definition dataAvailability (config : NodeConfig)
  : option NodeConfigDataAvailability :=
  node_data_availability (node config).

(** [config.node.avail['fallback-s3-service-config']] *)
Definition fallbackBlock (config : NodeConfig) : NodeConfigFallbackS3 :=
  fallback_s3_service_config (node_avail (node config)).

(** [config.node.dangerous['disable-blob-reader']] *)
Definition disableBlobReader (config : NodeConfig) : bool :=
  disable_blob_reader (node_dangerous (node config)).

(** [config.node['batch-poster']['parent-chain-wallet']['private-key']] *)
Definition batchPosterKey (config : NodeConfig) : string :=
  private_key (bp_parent_chain_wallet (node_batch_poster (node config))).

(** [config.node.staker['parent-chain-wallet']['private-key']] *)
Definition stakerKey (config : NodeConfig) : string :=
  private_key (staker_parent_chain_wallet (node_staker (node config))).

(** *** The three assignments made after the literal *)

(** [config['parent-chain']!['blob-client'] = b] *)
Definition set_blob_client (config : NodeConfig) (b : NodeConfigBlobClient)
  : NodeConfig :=
  {| chain := chain config;
     parent_chain :=
       {| pc_connection := pc_connection (parent_chain config);
          pc_blob_client := Some b |};
     http := http config;
     node := node config;
     execution := execution config |}.

Definition node_with_data_availability (n : NodeConfigNode)
  (da : NodeConfigDataAvailability) : NodeConfigNode :=
  {| node_sequencer := node_sequencer n;
     node_delayed_sequencer := node_delayed_sequencer n;
     node_batch_poster := node_batch_poster n;
     node_staker := node_staker n;
     node_dangerous := node_dangerous n;
     node_avail := node_avail n;
     node_data_availability := Some da |}.

(** [config.node!['data-availability'] = da] *)
Definition set_data_availability (config : NodeConfig)
  (da : NodeConfigDataAvailability) : NodeConfig :=
  {| chain := chain config;
     parent_chain := parent_chain config;
     http := http config;
     node := node_with_data_availability (node config) da;
     execution := execution config |}.

Definition avail_with_fallback (a : NodeConfigAvail) (f : NodeConfigFallbackS3)
  : NodeConfigAvail :=
  {| avail_enable := avail_enable a;
     avail_seed := avail_seed a;
     avail_api_url := avail_api_url a;
     avail_app_id := avail_app_id a;
     avail_timeout := avail_timeout a;
     fallback_s3_service_config := f;
     avail_bridge_config := avail_bridge_config a |}.

Definition node_with_avail (n : NodeConfigNode) (a : NodeConfigAvail)
  : NodeConfigNode :=
  {| node_sequencer := node_sequencer n;
     node_delayed_sequencer := node_delayed_sequencer n;
     node_batch_poster := node_batch_poster n;
     node_staker := node_staker n;
     node_dangerous := node_dangerous n;
     node_avail := a;
     node_data_availability := node_data_availability n |}.

(** [config.node!.avail!['fallback-s3-service-config'] = f] *)
Definition set_fallback_s3 (config : NodeConfig) (f : NodeConfigFallbackS3)
  : NodeConfig :=
  {| chain := chain config;
     parent_chain := parent_chain config;
     http := http config;
     node := node_with_avail (node config)
               (avail_with_fallback (node_avail (node config)) f);
     execution := execution config |}.

(** ** Helpers local to the module *)

(** [privateKey.startsWith('0x') ? privateKey.slice(2) : privateKey] *)
Definition sanitizePrivateKey (privateKey : string) : string :=
  if JS.startsWith privateKey "0x" then JS.slice privateKey 2 else privateKey.

(** The message of the only [throw] of the derivation. *)
Definition beaconRequiredMessage : string :=
  JS.dquote ++ "parentChainBeaconRpcUrl" ++ JS.dquote
    ++ " is required for L2 Orbit chains.".

(** The error thrown by the derivation: a plain [Error] with the message
    above, which the specification names [MissingRequiredField]. *)
Definition MissingRequiredField : Error := mkError beaconRequiredMessage.

(** ** The derivation

    The declarations of [ChainConfig], of the chain tables and of the
    classifiers built on them are outside the sources at hand.  The
    derivation is therefore written over them:
    - [ChainConfigOther] stands for the members of the chain configuration
      that the derivation copies without reading;
    - [getParentChainLayer] and [parentChainIsArbitrum] are the imported
      classifiers, at the types their call sites fix;
    - [validateParentChain] is the imported check of the parent chain id:
      it returns the id of a supported parent chain and throws for any
      other id, so that its outcome is a [result];
    - [JSON_stringify] is the built-in [JSON.stringify] at the type of the
      chain-info array. *)

Section Derivation.

Context {ChainConfigOther : Type}.

Record ChainConfigArbitrum : Type := {
  InitialChainOwner : string;
  DataAvailabilityCommittee : bool;
  arbitrum_other : ChainConfigOther
}.

Record ChainConfig : Type := {
  chainId : Z;
  arbitrum : ChainConfigArbitrum;
  chainConfig_other : ChainConfigOther
}.

(** The object under the ['rollup'] key of a chain-info entry. *)
Record ChainInfoRollup : Type := {
  ri_bridge : string;
  ri_inbox : string;
  ri_sequencer_inbox : string;
  ri_rollup : string;
  ri_validator_utils : string;
  ri_validator_wallet_creator : string;
  ri_deployed_at : Z
}.

(** One entry of [NodeConfigChainInfoJson]. *)
Record ChainInfo : Type := {
  ci_chain_id : Z;
  ci_parent_chain_id : ParentChainId;
  ci_parent_chain_is_arbitrum : bool;
  ci_chain_name : string;
  ci_chain_config : ChainConfig;
  ci_rollup : ChainInfoRollup
}.

Definition NodeConfigChainInfoJson : Type := list ChainInfo.

Record PrepareNodeConfigParams : Type := {
  chainName : string;
  chainConfig : ChainConfig;
  coreContracts : CoreContracts;
  batchPosterPrivateKey : string;
  validatorPrivateKey : string;
  availAddressSeed : string;
  availAppId : Z;
  fallbackS3Config : FallbackS3Config;
  parentChainId : ParentChainId;
  parentChainRpcUrl : string;
  parentChainBeaconRpcUrl : option string;
  dasServerUrl : option string
}.

Variable getParentChainLayer : ParentChainId -> Z.
Variable parentChainIsArbitrum : ParentChainId -> bool.
Variable validateParentChain : ParentChainId -> result ParentChainId.
Variable JSON_stringify : NodeConfigChainInfoJson -> string.

Definition stringifyInfoJson (infoJson : NodeConfigChainInfoJson) : string :=
  JSON_stringify infoJson.

Definition getDisableBlobReader (parentChainId : ParentChainId) : bool :=
  if negb (Z.eqb (getParentChainLayer parentChainId) 1)
     && negb (parentChainIsArbitrum parentChainId)
  then true
  else false.

(** The chain-info entry that the literal serialises; [validated] is the
    id that [validateParentChain(parentChainId)] returned. *)
Definition chainInfoOf (validated : ParentChainId)
  (p : PrepareNodeConfigParams) : ChainInfo :=
  {| ci_chain_id := chainId (chainConfig p);
     ci_parent_chain_id := parentChainId p;
     ci_parent_chain_is_arbitrum := parentChainIsArbitrum validated;
     ci_chain_name := chainName p;
     ci_chain_config := chainConfig p;
     ci_rollup :=
       {| ri_bridge := bridge (coreContracts p);
          ri_inbox := inbox (coreContracts p);
          ri_sequencer_inbox := sequencerInbox (coreContracts p);
          ri_rollup := rollup (coreContracts p);
          ri_validator_utils := validatorUtils (coreContracts p);
          ri_validator_wallet_creator :=
            validatorWalletCreator (coreContracts p);
          ri_deployed_at := deployedAtBlockNumber (coreContracts p) |} |}.

(** The object literal bound to [config], once the call of
    [validateParentChain] inside it has returned [validated]. *)
Definition configLiteral (validated : ParentChainId)
  (p : PrepareNodeConfigParams) : NodeConfig :=
  {| chain :=
       {| chain_info_json := stringifyInfoJson [chainInfoOf validated p];
          chain_name := chainName p |};
     parent_chain :=
       {| pc_connection := {| connection_url := parentChainRpcUrl p |};
          pc_blob_client := None |};
     http :=
       {| http_addr := "0.0.0.0";
          http_port := 8449;
          http_vhosts := ["*"];
          http_corsdomain := ["*"];
          http_api := ["eth"; "net"; "web3"; "arb"; "debug"] |};
     node :=
       {| node_sequencer := true;
          node_delayed_sequencer :=
            {| ds_enable := true;
               ds_use_merge_finality := false;
               ds_finalize_distance := 1 |};
          node_batch_poster :=
            {| bp_max_size := 90000;
               bp_enable := true;
               bp_parent_chain_wallet :=
                 {| private_key :=
                      sanitizePrivateKey (batchPosterPrivateKey p) |} |};
          node_staker :=
            {| staker_enable := true;
               staker_strategy := "MakeNodes";
               staker_parent_chain_wallet :=
                 {| private_key :=
                      sanitizePrivateKey (validatorPrivateKey p) |} |};
          node_dangerous :=
            {| no_sequencer_coordinator := true;
               disable_blob_reader :=
                 getDisableBlobReader (parentChainId p) |};
          node_avail :=
            {| avail_enable := true;
               avail_seed := availAddressSeed p;
               avail_api_url := "wss://turing-rpc.avail.so/ws";
               avail_app_id := availAppId p;
               avail_timeout := "100s";
               fallback_s3_service_config :=
                 {| fs3_enable := false;
                    fs3_access_key := None;
                    fs3_bucket := None;
                    fs3_object_prefix := None;
                    fs3_region := None;
                    fs3_secret_key := None;
                    fs3_discard_after_timeout := None |};
               avail_bridge_config :=
                 {| avail_bridge_api_url :=
                      "https://turing-bridge-api.fra.avail.so/";
                    vectorx_address :=
                      "0xA712dfec48AF3a78419A8FF90fE8f97Ae74680F0";
                    arbsepolia_rpc :=
                      "wss://sepolia-rollup.arbitrum.io/rpc" |} |};
          node_data_availability := None |};
     execution :=
       {| forwarding_target := "";
          exec_sequencer :=
            {| es_enable := true;
               es_max_tx_data_size := 85000;
               es_max_block_speed := "250ms" |};
          exec_caching := {| archive := true |} |} |}.

(** [if (parentChainBeaconRpcUrl) { ... 'blob-client' = ... }] *)
Definition addBlobClient (p : PrepareNodeConfigParams) (config : NodeConfig)
  : NodeConfig :=
  match parentChainBeaconRpcUrl p with
  | Some url =>
      if JS.truthy_string url
      then set_blob_client config {| beacon_url := url |}
      else config
  | None => config
  end.

(** [if (chainConfig.arbitrum.DataAvailabilityCommittee) { ... }], with
    [dasServerUrlWithFallback] computed just before it. *)
Definition addDataAvailability (p : PrepareNodeConfigParams)
  (config : NodeConfig) : NodeConfig :=
  let dasServerUrlWithFallback :=
    JS.nullish (dasServerUrl p) "http://localhost" in
  if DataAvailabilityCommittee (arbitrum (chainConfig p))
  then
    set_data_availability config
      {| da_enable := true;
         da_sequencer_inbox_address := sequencerInbox (coreContracts p);
         da_parent_chain_node_url := parentChainRpcUrl p;
         da_rest_aggregator :=
           {| rest_enable := true;
              rest_urls := [dasServerUrlWithFallback ++ ":9877"] |};
         da_rpc_aggregator :=
           {| rpc_enable := true;
              rpc_assumed_honest := 1 |} |}
  else config.

(** [if (fallbackS3Config.enable) { ... }] *)
Definition addFallbackS3 (p : PrepareNodeConfigParams) (config : NodeConfig)
  : NodeConfig :=
  if enable (fallbackS3Config p)
  then
    set_fallback_s3 config
      {| fs3_enable := true;
         fs3_access_key := accessKey (fallbackS3Config p);
         fs3_bucket := bucket (fallbackS3Config p);
         fs3_object_prefix := objectPrefix (fallbackS3Config p);
         fs3_region := region (fallbackS3Config p);
         fs3_secret_key := secretKey (fallbackS3Config p);
         fs3_discard_after_timeout := Some false |}
  else config.

(** The guard comes first; the literal is evaluated next, and the call of
    [validateParentChain] in its first member is the only one of its
    members that can throw: an error raised there leaves the function. *)
Definition prepareNodeConfig (p : PrepareNodeConfigParams)
  : result NodeConfig :=
  if Z.eqb (getParentChainLayer (parentChainId p)) 1
     && negb (JS.truthy (parentChainBeaconRpcUrl p))
  then Throw MissingRequiredField
  else
    match validateParentChain (parentChainId p) with
    | Throw e => Throw e
    | Return validated =>
        let config := configLiteral validated p in
        let config := addBlobClient p config in
        let config := addDataAvailability p config in
        let config := addFallbackS3 p config in
        Return config
    end.

(** The document that [prepareNodeConfig] returns when it does not throw
    and [validateParentChain] returned [validated]. *)
Definition assembledConfig (validated : ParentChainId)
  (p : PrepareNodeConfigParams) : NodeConfig :=
  addFallbackS3 p
    (addDataAvailability p (addBlobClient p (configLiteral validated p))).

(** The condition under which the derivation refuses its input: a layer-1
    parent chain whose beacon endpoint is [undefined] or the empty string. *)
Definition beaconMissing (p : PrepareNodeConfigParams) : Prop :=
  getParentChainLayer (parentChainId p) = 1
  /\ (parentChainBeaconRpcUrl p = None \/ parentChainBeaconRpcUrl p = Some "").

(** [p] with its optional [dasServerUrl] replaced. *)
Definition with_dasServerUrl (p : PrepareNodeConfigParams)
  (d : option string) : PrepareNodeConfigParams :=
  {| chainName := chainName p;
     chainConfig := chainConfig p;
     coreContracts := coreContracts p;
     batchPosterPrivateKey := batchPosterPrivateKey p;
     validatorPrivateKey := validatorPrivateKey p;
     availAddressSeed := availAddressSeed p;
     availAppId := availAppId p;
     fallbackS3Config := fallbackS3Config p;
     parentChainId := parentChainId p;
     parentChainRpcUrl := parentChainRpcUrl p;
     parentChainBeaconRpcUrl := parentChainBeaconRpcUrl p;
     dasServerUrl := d |}.

(** Two inputs differ at most in [dasServerUrl]. *)
Definition differ_only_in_dasServerUrl (p q : PrepareNodeConfigParams)
  : Prop :=
  with_dasServerUrl p None = with_dasServerUrl q None.

End Derivation.

(** ** The private-key normalisation, in the words of the specification

    [out] is [key] with a leading [0x] removed when [key] starts with [0x],
    and [key] itself otherwise. *)
Definition hex_marker_stripped (key out : string) : Prop :=
  (forall rest, key = "0x" ++ rest -> out = rest)
  /\ ((forall rest, key <> "0x" ++ rest) -> out = key).

(** ** Sample instances

    Modelled from the spec: the chain table behind [getParentChainLayer] and
    [parentChainIsArbitrum] is not part of the sources at hand.  The
    specification describes both as pure lookups on the numeric chain id
    with the layers 1 and 2.  The instances below serve to run the
    derivation on concrete inputs: Ethereum mainnet (1) and Sepolia
    (11155111) are layer 1, every other id is layer 2; Arbitrum One (42161)
    and Arbitrum Sepolia (421614) are Arbitrum chains.  The sample check
    of the parent chain id accepts the ids of [sampleParentChains] and
    throws for every other id. *)
Definition sampleParentChainLayer (id : ParentChainId) : Z :=
  if Z.eqb id 1 then 1 else if Z.eqb id 11155111 then 1 else 2.

Definition sampleParentChainIsArbitrum (id : ParentChainId) : bool :=
  Z.eqb id 42161 || Z.eqb id 421614.

(** An integer in decimal notation, and back. *)
Definition decimal (z : Z) : string := NilEmpty.string_of_int (Z.to_int z).

Definition read_decimal (s : string) : option Z :=
  option_map Z.of_int (NilEmpty.int_of_string s).

Definition sampleParentChains : list ParentChainId :=
  [1; 11155111; 17000; 8453; 84532; 42161; 42170; 421614].

Definition sampleValidateParentChain (id : ParentChainId)
  : result ParentChainId :=
  if existsb (Z.eqb id) sampleParentChains
  then Return id
  else Throw (mkError ("Parent chain not supported: " ++ decimal id)).

(** *** A stand-in for [JSON.stringify] and [JSON.parse]

    The properties that read the info block assume of the two built-ins
    that parsing undoes serialising.  The pair below meets that condition
    at the type of the chain-info array, so that those properties can be
    run on the sample inputs.  It renders every member of every entry, in
    the order of the literal; its syntax is not that of JSON: a string is
    written character by character, each one after a [+], and closed by a
    [.]; a number is written as the string of its decimal notation, a
    boolean as [true] or [false]; the array starts with one [*] per entry
    and a [|]. *)

Fixpoint put_string (s k : string) : string :=
  match s with
  | EmptyString => String "." k
  | String c s' => String "+" (String c (put_string s' k))
  end.

Fixpoint read_string (w : string) : option (string * string) :=
  match w with
  | EmptyString => None
  | String m rest =>
      if Ascii.eqb m "." then Some (EmptyString, rest)
      else if Ascii.eqb m "+" then
        match rest with
        | EmptyString => None
        | String c rest' =>
            match read_string rest' with
            | Some (s, r) => Some (String c s, r)
            | None => None
            end
        end
      else None
  end.

Definition put_number (z : Z) (k : string) : string :=
  put_string (decimal z) k.

Definition read_number (w : string) : option (Z * string) :=
  match read_string w with
  | Some (s, r) =>
      match read_decimal s with
      | Some z => Some (z, r)
      | None => None
      end
  | None => None
  end.

Definition put_boolean (b : bool) (k : string) : string :=
  put_string (if b then "true" else "false") k.

Definition read_boolean (w : string) : option (bool * string) :=
  match read_string w with
  | Some (s, r) =>
      if String.eqb s "true" then Some (true, r)
      else if String.eqb s "false" then Some (false, r)
      else None
  | None => None
  end.

(** Sequencing of readers. *)
Definition and_then {A B : Type} (r : string -> option (A * string))
  (f : A -> string -> option (B * string)) (w : string)
  : option (B * string) :=
  match r w with
  | Some (a, rest) => f a rest
  | None => None
  end.

Definition put_entry (e : @ChainInfo unit) (k : string) : string :=
  put_number (ci_chain_id e)
    (put_number (ci_parent_chain_id e)
       (put_boolean (ci_parent_chain_is_arbitrum e)
          (put_string (ci_chain_name e)
             (put_number (chainId (ci_chain_config e))
                (put_string
                   (InitialChainOwner (arbitrum (ci_chain_config e)))
                   (put_boolean
                      (DataAvailabilityCommittee
                         (arbitrum (ci_chain_config e)))
                      (put_string (ri_bridge (ci_rollup e))
                         (put_string (ri_inbox (ci_rollup e))
                            (put_string (ri_sequencer_inbox (ci_rollup e))
                               (put_string (ri_rollup (ci_rollup e))
                                  (put_string
                                     (ri_validator_utils (ci_rollup e))
                                     (put_string
                                        (ri_validator_wallet_creator
                                           (ci_rollup e))
                                        (put_number
                                           (ri_deployed_at (ci_rollup e))
                                           k))))))))))))).

Definition read_entry : string -> option (@ChainInfo unit * string) :=
  and_then read_number (fun chain_id =>
  and_then read_number (fun parent_chain_id =>
  and_then read_boolean (fun is_arbitrum =>
  and_then read_string (fun name =>
  and_then read_number (fun config_chain_id =>
  and_then read_string (fun owner =>
  and_then read_boolean (fun committee =>
  and_then read_string (fun bridge' =>
  and_then read_string (fun inbox' =>
  and_then read_string (fun sequencer_inbox =>
  and_then read_string (fun rollup' =>
  and_then read_string (fun validator_utils =>
  and_then read_string (fun wallet_creator =>
  and_then read_number (fun deployed_at => fun rest =>
    Some
      ({| ci_chain_id := chain_id;
          ci_parent_chain_id := parent_chain_id;
          ci_parent_chain_is_arbitrum := is_arbitrum;
          ci_chain_name := name;
          ci_chain_config :=
            {| chainId := config_chain_id;
               arbitrum :=
                 {| InitialChainOwner := owner;
                    DataAvailabilityCommittee := committee;
                    arbitrum_other := tt |};
               chainConfig_other := tt |};
          ci_rollup :=
            {| ri_bridge := bridge';
               ri_inbox := inbox';
               ri_sequencer_inbox := sequencer_inbox;
               ri_rollup := rollup';
               ri_validator_utils := validator_utils;
               ri_validator_wallet_creator := wallet_creator;
               ri_deployed_at := deployed_at |} |},
       rest))))))))))))))).

Fixpoint put_entries (l : list (@ChainInfo unit)) (k : string) : string :=
  match l with
  | [] => k
  | e :: l' => put_entry e (put_entries l' k)
  end.

Fixpoint read_entries (n : nat) (w : string)
  : option (list (@ChainInfo unit) * string) :=
  match n with
  | O => Some ([], w)
  | S n' =>
      match read_entry w with
      | Some (e, rest) =>
          match read_entries n' rest with
          | Some (l, rest') => Some (e :: l, rest')
          | None => None
          end
      | None => None
      end
  end.

Fixpoint put_count (n : nat) (k : string) : string :=
  match n with
  | O => String "|" k
  | S n' => String "*" (put_count n' k)
  end.

Fixpoint read_count (w : string) : option (nat * string) :=
  match w with
  | EmptyString => None
  | String m rest =>
      if Ascii.eqb m "|" then Some (O, rest)
      else if Ascii.eqb m "*" then
        match read_count rest with
        | Some (n, r) => Some (S n, r)
        | None => None
        end
      else None
  end.

Definition sampleStringify (infoJson : @NodeConfigChainInfoJson unit)
  : string :=
  put_count (List.length infoJson) (put_entries infoJson EmptyString).

Definition sampleParse (w : string) : option (@NodeConfigChainInfoJson unit) :=
  match read_count w with
  | Some (n, rest) =>
      match read_entries n rest with
      | Some (l, EmptyString) => Some l
      | _ => None
      end
  | None => None
  end.

Definition sampleCoreContracts : CoreContracts :=
  {| bridge := "0x1111111111111111111111111111111111111111";
     inbox := "0x2222222222222222222222222222222222222222";
     sequencerInbox := "0x3333333333333333333333333333333333333333";
     rollup := "0x4444444444444444444444444444444444444444";
     validatorUtils := "0x5555555555555555555555555555555555555555";
     validatorWalletCreator := "0x6666666666666666666666666666666666666666";
     deployedAtBlockNumber := 1234567 |}.

Definition fallbackDisabled : FallbackS3Config :=
  {| enable := false;
     accessKey := None;
     bucket := None;
     objectPrefix := None;
     region := None;
     secretKey := None |}.

Definition fallbackComplete : FallbackS3Config :=
  {| enable := true;
     accessKey := Some "AKIAEXAMPLE";
     bucket := Some "orbit-batches";
     objectPrefix := Some "batches/";
     region := Some "eu-central-1";
     secretKey := Some "s3cr3t" |}.

(** Enabled, but without an access key and without a bucket. *)
Definition fallbackIncomplete : FallbackS3Config :=
  {| enable := true;
     accessKey := None;
     bucket := None;
     objectPrefix := Some "batches/";
     region := Some "eu-central-1";
     secretKey := Some "s3cr3t" |}.

Definition sampleParams (parent : ParentChainId) (beacon : option string)
  (committee : bool) (fallback : FallbackS3Config) (das : option string)
  : @PrepareNodeConfigParams unit :=
  {| chainName := "My Orbit Chain";
     chainConfig :=
       {| chainId := 97400766948;
          arbitrum :=
            {| InitialChainOwner :=
                 "0x7777777777777777777777777777777777777777";
               DataAvailabilityCommittee := committee;
               arbitrum_other := tt |};
          chainConfig_other := tt |};
     coreContracts := sampleCoreContracts;
     batchPosterPrivateKey := "0xaa11";
     validatorPrivateKey := "bb22";
     availAddressSeed := "seed words";
     availAppId := 7;
     fallbackS3Config := fallback;
     parentChainId := parent;
     parentChainRpcUrl := "https://sepolia-rollup.arbitrum.io/rpc";
     parentChainBeaconRpcUrl := beacon;
     dasServerUrl := das |}.

(** The derivation over the sample instances. *)
Definition samplePrepareNodeConfig
  : @PrepareNodeConfigParams unit -> result NodeConfig :=
  prepareNodeConfig sampleParentChainLayer sampleParentChainIsArbitrum
    sampleValidateParentChain sampleStringify.

(** The document assembled over the sample instances. *)
Definition sampleAssembledConfig (p : @PrepareNodeConfigParams unit)
  : NodeConfig :=
  assembledConfig sampleParentChainLayer sampleParentChainIsArbitrum
    sampleStringify (parentChainId p) p.

(** *** Sample inputs *)

(** Layer-2 parent chain, no beacon endpoint, no committee, no fallback. *)
Definition scenarioA : @PrepareNodeConfigParams unit :=
  sampleParams 421614 None false fallbackDisabled None.

(** Layer-1 parent chain, no beacon endpoint. *)
Definition scenarioB : @PrepareNodeConfigParams unit :=
  sampleParams 1 None false fallbackDisabled None.

(** Layer-1 parent chain with a beacon endpoint, committee enabled. *)
Definition scenarioC : @PrepareNodeConfigParams unit :=
  sampleParams 1 (Some "https://beacon.example") true fallbackDisabled None.

(** Fallback storage enabled with its five fields. *)
Definition scenarioD : @PrepareNodeConfigParams unit :=
  sampleParams 421614 None false fallbackComplete (Some "https://das.example").

(** Layer-1 parent chain, the beacon endpoint is the empty string. *)
Definition emptyBeaconOnLayer1 : @PrepareNodeConfigParams unit :=
  sampleParams 1 (Some "") false fallbackDisabled None.

(** Layer-2 parent chain, the beacon endpoint is the empty string. *)
Definition emptyBeaconOnLayer2 : @PrepareNodeConfigParams unit :=
  sampleParams 421614 (Some "") false fallbackDisabled None.

(** Layer-2 parent chain with a beacon endpoint. *)
Definition beaconOnLayer2 : @PrepareNodeConfigParams unit :=
  sampleParams 421614 (Some "https://beacon.example") false fallbackDisabled
    None.

(** Fallback storage enabled without access key and bucket, on a layer-2
    and on a layer-1 parent chain without beacon endpoint. *)
Definition incompleteFallbackOnLayer2 : @PrepareNodeConfigParams unit :=
  sampleParams 421614 None false fallbackIncomplete None.

Definition incompleteFallbackOnLayer1 : @PrepareNodeConfigParams unit :=
  sampleParams 1 None false fallbackIncomplete None.

(** ** Further updates of the input record *)

(** [p] with its fallback configuration replaced. *)
Definition with_fallbackS3Config {ChainConfigOther : Type}
  (p : @PrepareNodeConfigParams ChainConfigOther) (f : FallbackS3Config)
  : @PrepareNodeConfigParams ChainConfigOther :=
  {| chainName := chainName p;
     chainConfig := chainConfig p;
     coreContracts := coreContracts p;
     batchPosterPrivateKey := batchPosterPrivateKey p;
     validatorPrivateKey := validatorPrivateKey p;
     availAddressSeed := availAddressSeed p;
     availAppId := availAppId p;
     fallbackS3Config := f;
     parentChainId := parentChainId p;
     parentChainRpcUrl := parentChainRpcUrl p;
     parentChainBeaconRpcUrl := parentChainBeaconRpcUrl p;
     dasServerUrl := dasServerUrl p |}.

(** Two inputs differ at most in their fallback configuration. *)
Definition differ_only_in_fallbackS3Config {ChainConfigOther : Type}
  (p q : @PrepareNodeConfigParams ChainConfigOther) : Prop :=
  with_fallbackS3Config p fallbackDisabled
  = with_fallbackS3Config q fallbackDisabled.

(** ** The example script that calls the derivation

    The script reads its options from [process.env].  An environment is
    the lookup [name -> value], [None] for a variable that is not set.
    The pieces of the script embedded here are its function
    [validateForFallbackS3] and the two places of [main] that prepare the
    optional inputs of [prepareNodeConfig]: the fallback configuration and
    the beacon endpoint.  An exception raised in [main] is the outcome
    [Throw]; the [catch] around the body of [main] only logs it. *)

Definition Env : Type := string -> option string.

(** The effect of [toLowerCase] on one character of the ASCII range: the
    letters [A]-[Z] go to [a]-[z], every other character is left alone. *)
Definition lower_ascii (c : ascii) : ascii :=
  let n := nat_of_ascii c in
  if Nat.leb 65 n && Nat.leb n 90 then ascii_of_nat (n + 32) else c.

(** [s.toLowerCase()], character by character.  Outside the ASCII range
    the built-in also maps letters, but never to one of the letters of
    [true], so that the comparison of the result with ['true'] made by the
    script is the one computed here. *)
Fixpoint toLowerCase (s : string) : string :=
  match s with
  | EmptyString => EmptyString
  | String c s' => String (lower_ascii c) (toLowerCase s')
  end.

(** [v === 'undefined']: the variable holds the nine-letter string. *)
Definition is_undefined_literal (v : option string) : bool :=
  match v with
  | Some s => String.eqb s "undefined"
  | None => false
  end.

Definition fallbackDetailsMessage : string :=
  "Please provide all details for fallback s3".

(** The five variables that [validateForFallbackS3] inspects, in the order
    of its disjunction. *)
Definition fallbackVariables : list string :=
  ["FALLBACKS3_ACCESS_KEY"; "FALLBACKS3_SECRET_KEY"; "FALLBACKS3_REGION";
   "FALLBACKS3_OBJECT_PREFIX"; "FALLBACKS3_BUCKET"].

Definition validateForFallbackS3 (env : Env) : result bool :=
  if is_undefined_literal (env "FALLBACKS3_ACCESS_KEY")
     || is_undefined_literal (env "FALLBACKS3_SECRET_KEY")
     || is_undefined_literal (env "FALLBACKS3_REGION")
     || is_undefined_literal (env "FALLBACKS3_OBJECT_PREFIX")
     || is_undefined_literal (env "FALLBACKS3_BUCKET")
  then Throw (mkError fallbackDetailsMessage)
  else Return true.

(** [process.env.FALLBACKS3_ENABLE?.toLowerCase() === 'true'] *)
Definition fallbackRequested (env : Env) : bool :=
  match env "FALLBACKS3_ENABLE" with
  | Some s => String.eqb (toLowerCase s) "true"
  | None => false
  end.

(** The value of [fallbackS3Config] in [main]: declared as [{enable: false}]
    and reassigned when the condition
    [FALLBACKS3_ENABLE?.toLowerCase() === 'true' && validateForFallbackS3()]
    holds; the right operand is evaluated only when the left one is true. *)
Definition mainFallbackS3Config (env : Env) : result FallbackS3Config :=
  let fallbackS3Config :=
    {| enable := false;
       accessKey := None;
       bucket := None;
       objectPrefix := None;
       region := None;
       secretKey := None |} in
  if fallbackRequested env
  then
    match validateForFallbackS3 env with
    | Throw e => Throw e
    | Return valid =>
        if valid
        then
          Return
            {| enable := true;
               accessKey := env "FALLBACKS3_ACCESS_KEY";
               bucket := env "FALLBACKS3_BUCKET";
               objectPrefix := env "FALLBACKS3_OBJECT_PREFIX";
               region := env "FALLBACKS3_REGION";
               secretKey := env "FALLBACKS3_SECRET_KEY" |}
        else Return fallbackS3Config
    end
  else Return fallbackS3Config.

(** The value of [nodeConfigParameters.parentChainBeaconRpcUrl] in [main]:
    the key is not written in the object literal and is assigned from
    [ETHEREUM_BEACON_RPC_URL] only for a layer-1 parent chain. *)
Definition mainBeaconRpcUrl (getParentChainLayer : ParentChainId -> Z)
  (env : Env) (parentChainId : ParentChainId) : option string :=
  if Z.eqb (getParentChainLayer parentChainId) 1
  then env "ETHEREUM_BEACON_RPC_URL"
  else None.

(** The spellings that differ from [true] in the case of letters only. *)
Definition spells_true (s : string) : Prop :=
  exists c1 c2 c3 c4,
    s = String c1 (String c2 (String c3 (String c4 EmptyString)))
    /\ (c1 = "t"%char \/ c1 = "T"%char)
    /\ (c2 = "r"%char \/ c2 = "R"%char)
    /\ (c3 = "u"%char \/ c3 = "U"%char)
    /\ (c4 = "e"%char \/ c4 = "E"%char).

(** *** Sample environments and further sample inputs *)

(** Fallback storage requested in capitals; of the five variables only the
    region is set. *)
Definition envFallbackRegionOnly : Env :=
  fun name =>
    if String.eqb name "FALLBACKS3_ENABLE" then Some "TRUE"
    else if String.eqb name "FALLBACKS3_REGION" then Some "eu-central-1"
    else None.

(** Fallback storage requested, none of the five variables set. *)
Definition envFallbackBare : Env :=
  fun name => if String.eqb name "FALLBACKS3_ENABLE" then Some "True" else None.

(** Fallback storage requested, the bucket holds the string [undefined]. *)
Definition envFallbackUndefinedBucket : Env :=
  fun name =>
    if String.eqb name "FALLBACKS3_ENABLE" then Some "true"
    else if String.eqb name "FALLBACKS3_BUCKET" then Some "undefined"
    else None.

(** A beacon endpoint in the environment, and nothing else. *)
Definition envBeacon : Env :=
  fun name =>
    if String.eqb name "ETHEREUM_BEACON_RPC_URL"
    then Some "https://beacon.example"
    else None.

(** The fallback configuration that [main] builds from [envFallbackBare]. *)
Definition fallbackBare : FallbackS3Config :=
  {| enable := true;
     accessKey := None;
     bucket := None;
     objectPrefix := None;
     region := None;
     secretKey := None |}.

(** Layer-2 parent chain, fallback storage as loaded from
    [envFallbackBare]. *)
Definition bareFallbackOnLayer2 : @PrepareNodeConfigParams unit :=
  sampleParams 421614 None false fallbackBare None.

(** A parent chain that the sample table puts on layer 2 and outside the
    Arbitrum family, with a beacon endpoint. *)
Definition beaconOnForeignLayer2 : @PrepareNodeConfigParams unit :=
  sampleParams 8453 (Some "https://beacon.example") false fallbackDisabled
    None.

(** A parent chain id that the sample check rejects, with a beacon
    endpoint. *)
Definition beaconOnUnsupportedChain : @PrepareNodeConfigParams unit :=
  sampleParams 10 (Some "https://beacon.example") false fallbackDisabled None.

(** Scenario C with the committee served from an explicit host. *)
Definition committeeWithServer : @PrepareNodeConfigParams unit :=
  sampleParams 1 (Some "https://beacon.example") true fallbackComplete
    (Some "https://das.example").

(** * Properties of the derivation *)

(** ** The helpers *)

Lemma truthy_false_iff (v : option string) :
  JS.truthy v = false <-> v = None \/ v = Some "".
Proof.
  destruct v as [[|c s]|]; simpl; split; intros H; auto; try discriminate.
  - destruct H as [H|H]; discriminate.
Qed.

Lemma truthy_true_iff (v : option string) :
  JS.truthy v = true <-> exists url, v = Some url /\ url <> "".
Proof.
  destruct v as [[|c s]|]; simpl; split; intros H; try discriminate; auto.
  - destruct H as (url & E & N). inversion E; subst. now elim N.
  - exists (String c s). split; [reflexivity|discriminate].
  - destruct H as (url & E & _). discriminate.
Qed.

Lemma sanitizePrivateKey_prefixed (rest : string) :
  sanitizePrivateKey ("0x" ++ rest) = rest.
Proof.
  unfold sanitizePrivateKey, JS.startsWith. simpl.
  destruct rest; reflexivity.
Qed.

Lemma startsWith_0x (key : string) :
  JS.startsWith key "0x" = true -> exists rest, key = "0x" ++ rest.
Proof.
  unfold JS.startsWith. intros E. apply prefix_correct in E.
  destruct key as [|a [|b rest]]; try discriminate E.
  exists rest. cbn [length substring] in E.
  injection E as -> -> _. reflexivity.
Qed.

Lemma sanitizePrivateKey_unprefixed (key : string) :
  (forall rest, key <> "0x" ++ rest) -> sanitizePrivateKey key = key.
Proof.
  intros H. unfold sanitizePrivateKey.
  destruct (JS.startsWith key "0x") eqn:E; [|reflexivity].
  destruct (startsWith_0x key E) as [rest ->]. now elim (H rest).
Qed.

Lemma sanitizePrivateKey_strips (key : string) :
  hex_marker_stripped key (sanitizePrivateKey key).
Proof.
  split.
  - intros rest ->. apply sanitizePrivateKey_prefixed.
  - apply sanitizePrivateKey_unprefixed.
Qed.

(** ** The derivation *)

Section Properties.

Context {ChainConfigOther : Type}.
Variable getParentChainLayer : ParentChainId -> Z.
Variable parentChainIsArbitrum : ParentChainId -> bool.
Variable validateParentChain : ParentChainId -> result ParentChainId.
Variable JSON_stringify : @NodeConfigChainInfoJson ChainConfigOther -> string.
Variable JSON_parse : string -> option (@NodeConfigChainInfoJson ChainConfigOther).

Local Abbreviation prepare :=
  (prepareNodeConfig getParentChainLayer parentChainIsArbitrum
     validateParentChain JSON_stringify).
Local Abbreviation assembled :=
  (assembledConfig getParentChainLayer parentChainIsArbitrum JSON_stringify).
Local Abbreviation validated p := (validateParentChain (parentChainId p)).
Local Abbreviation missing := (beaconMissing getParentChainLayer).

Implicit Types (p q : @PrepareNodeConfigParams ChainConfigOther).
Implicit Types (config : NodeConfig).
Implicit Types (v : ParentChainId).

(** *** Outcome of the guard *)

Lemma guard_true_iff p :
  Z.eqb (getParentChainLayer (parentChainId p)) 1
  && negb (JS.truthy (parentChainBeaconRpcUrl p)) = true
  <-> missing p.
Proof.
  unfold beaconMissing.
  rewrite andb_true_iff, Z.eqb_eq, negb_true_iff, truthy_false_iff.
  reflexivity.
Qed.

Lemma prepare_missing p : missing p -> prepare p = Throw MissingRequiredField.
Proof.
  intros H. apply guard_true_iff in H.
  unfold prepareNodeConfig. now rewrite H.
Qed.

Lemma prepare_not_missing p :
  ~ missing p ->
  prepare p
  = match validated p with
    | Throw e => Throw e
    | Return v => Return (assembled v p)
    end.
Proof.
  intros H. unfold prepareNodeConfig.
  destruct (_ && _) eqn:G; [|reflexivity].
  apply guard_true_iff in G. contradiction.
Qed.

Lemma prepare_accepted p v :
  ~ missing p -> validated p = Return v -> prepare p = Return (assembled v p).
Proof. intros N V. now rewrite (prepare_not_missing p N), V. Qed.

Lemma prepare_rejected p e :
  ~ missing p -> validated p = Throw e -> prepare p = Throw e.
Proof. intros N V. now rewrite (prepare_not_missing p N), V. Qed.

Lemma missing_dec p : missing p \/ ~ missing p.
Proof.
  destruct (Z.eqb (getParentChainLayer (parentChainId p)) 1
            && negb (JS.truthy (parentChainBeaconRpcUrl p))) eqn:G.
  - left. now apply guard_true_iff.
  - right. intros M. apply guard_true_iff in M. congruence.
Qed.

(** The three ways in which the derivation ends. *)
Lemma prepare_cases p :
  (missing p /\ prepare p = Throw MissingRequiredField)
  \/ (exists e, ~ missing p /\ validated p = Throw e /\ prepare p = Throw e)
  \/ (exists v,
        ~ missing p /\ validated p = Return v
        /\ prepare p = Return (assembled v p)).
Proof.
  destruct (missing_dec p) as [M|N].
  - left. auto using prepare_missing.
  - right. destruct (validated p) as [e|v] eqn:V.
    + left. exists e. auto using prepare_rejected.
    + right. exists v. auto using prepare_accepted.
Qed.

Lemma prepare_Return_inv p config :
  prepare p = Return config ->
  ~ missing p
  /\ exists v, validated p = Return v /\ config = assembled v p.
Proof.
  intros H.
  destruct (prepare_cases p)
    as [[_ E]|[(e & _ & _ & E)|(v & N & V & E)]]; rewrite E in H.
  - discriminate.
  - discriminate.
  - injection H as <-. split; [exact N|]. now exists v.
Qed.

(** *** The blocks of the assembled document *)

Ltac unfold_assembly :=
  unfold assembledConfig, addFallbackS3, addDataAvailability, addBlobClient,
    blobClient, dataAvailability, fallbackBlock, disableBlobReader,
    batchPosterKey, stakerKey.

Ltac run_assembly p :=
  unfold_assembly;
  destruct (parentChainBeaconRpcUrl p) as [[|? ?]|];
  destruct (DataAvailabilityCommittee (arbitrum (chainConfig p)));
  destruct (enable (fallbackS3Config p));
  try reflexivity.

Lemma assembled_blobClient v p :
  blobClient (assembled v p)
  = match parentChainBeaconRpcUrl p with
    | Some url =>
        if JS.truthy_string url then Some {| beacon_url := url |} else None
    | None => None
    end.
Proof. run_assembly p. Qed.

Lemma assembled_dataAvailability v p :
  dataAvailability (assembled v p)
  = if DataAvailabilityCommittee (arbitrum (chainConfig p))
    then Some
           {| da_enable := true;
              da_sequencer_inbox_address := sequencerInbox (coreContracts p);
              da_parent_chain_node_url := parentChainRpcUrl p;
              da_rest_aggregator :=
                {| rest_enable := true;
                   rest_urls :=
                     [JS.nullish (dasServerUrl p) "http://localhost"
                      ++ ":9877"] |};
              da_rpc_aggregator :=
                {| rpc_enable := true; rpc_assumed_honest := 1 |} |}
    else None.
Proof. run_assembly p. Qed.

Lemma assembled_fallbackBlock v p :
  fallbackBlock (assembled v p)
  = if enable (fallbackS3Config p)
    then {| fs3_enable := true;
            fs3_access_key := accessKey (fallbackS3Config p);
            fs3_bucket := bucket (fallbackS3Config p);
            fs3_object_prefix := objectPrefix (fallbackS3Config p);
            fs3_region := region (fallbackS3Config p);
            fs3_secret_key := secretKey (fallbackS3Config p);
            fs3_discard_after_timeout := Some false |}
    else {| fs3_enable := false;
            fs3_access_key := None;
            fs3_bucket := None;
            fs3_object_prefix := None;
            fs3_region := None;
            fs3_secret_key := None;
            fs3_discard_after_timeout := None |}.
Proof. run_assembly p. Qed.

Lemma assembled_disableBlobReader v p :
  disableBlobReader (assembled v p)
  = getDisableBlobReader getParentChainLayer parentChainIsArbitrum
      (parentChainId p).
Proof. run_assembly p. Qed.

Lemma assembled_keys v p :
  batchPosterKey (assembled v p) = sanitizePrivateKey (batchPosterPrivateKey p)
  /\ stakerKey (assembled v p) = sanitizePrivateKey (validatorPrivateKey p).
Proof. split; run_assembly p. Qed.

Lemma assembled_chain v p :
  chain (assembled v p)
  = {| chain_info_json :=
         stringifyInfoJson JSON_stringify
           [chainInfoOf parentChainIsArbitrum v p];
       chain_name := chainName p |}.
Proof. run_assembly p. Qed.

Lemma getDisableBlobReader_true_iff (id : ParentChainId) :
  getDisableBlobReader getParentChainLayer parentChainIsArbitrum id = true
  <-> getParentChainLayer id <> 1 /\ parentChainIsArbitrum id = false.
Proof.
  unfold getDisableBlobReader.
  destruct (Z.eqb_spec (getParentChainLayer id) 1) as [E|N];
    destruct (parentChainIsArbitrum id); simpl; split;
    try discriminate; try tauto; intros [? ?]; congruence.
Qed.

Lemma present_blobClient_iff v p :
  present (blobClient (assembled v p))
  <-> exists url, parentChainBeaconRpcUrl p = Some url /\ url <> "".
Proof.
  rewrite assembled_blobClient, <- truthy_true_iff. unfold present.
  destruct (parentChainBeaconRpcUrl p) as [[|c s]|]; simpl;
    split; congruence.
Qed.

(** *** The properties stated by the specification *)

(** C1, amended.  When the parent chain is classified as layer 1 and the
    beacon endpoint is [undefined] or the empty string, the derivation
    throws the missing-beacon error.  On every other input it ends as
    [validateParentChain] ends on the parent chain id: with the error of
    that function when it rejects the id, with a document when it accepts
    it.  The missing-beacon error is therefore thrown exactly on a layer-1
    parent chain without a non-empty beacon endpoint, unless
    [validateParentChain] itself raises that very error. *)
Theorem prepareNodeConfig_throws_iff_beacon_missing p :
  (prepare p = Throw MissingRequiredField
   <-> (getParentChainLayer (parentChainId p) = 1
        /\ (parentChainBeaconRpcUrl p = None
            \/ parentChainBeaconRpcUrl p = Some ""))
       \/ validateParentChain (parentChainId p) = Throw MissingRequiredField)
  /\ ((exists config, prepare p = Return config)
      <-> ~ (getParentChainLayer (parentChainId p) = 1
             /\ (parentChainBeaconRpcUrl p = None
                 \/ parentChainBeaconRpcUrl p = Some ""))
          /\ exists v, validateParentChain (parentChainId p) = Return v)
  /\ (forall e,
        prepare p = Throw e
        <-> (getParentChainLayer (parentChainId p) = 1
             /\ (parentChainBeaconRpcUrl p = None
                 \/ parentChainBeaconRpcUrl p = Some "")
             /\ e = MissingRequiredField)
            \/ (~ (getParentChainLayer (parentChainId p) = 1
                   /\ (parentChainBeaconRpcUrl p = None
                       \/ parentChainBeaconRpcUrl p = Some ""))
                /\ validateParentChain (parentChainId p) = Throw e)).
Proof.
  fold (missing p).
  assert (T : forall e,
             prepare p = Throw e
             <-> (missing p /\ e = MissingRequiredField)
                 \/ (~ missing p /\ validated p = Throw e)).
  { intros e.
    destruct (prepare_cases p)
      as [[M E]|[(e' & N & V & E)|(v & N & V & E)]]; rewrite E; split.
    - intros H. injection H as <-. left. auto.
    - intros [[_ ->]|[N _]]; [reflexivity|contradiction].
    - intros H. injection H as <-. right. auto.
    - intros [[M _]|[_ V']]; [contradiction|congruence].
    - discriminate.
    - intros [[M _]|[_ V']]; [contradiction|congruence]. }
  split; [|split].
  - rewrite T. split.
    + intros [[M _]|[_ V]]; auto.
    + intros [M|V]; [left; auto|].
      destruct (missing_dec p) as [M|N]; [left|right]; auto.
  - destruct (prepare_cases p)
      as [[M E]|[(e' & N & V & E)|(v & N & V & E)]]; rewrite E; split.
    + intros [config H]. discriminate.
    + intros [N _]. contradiction.
    + intros [config H]. discriminate.
    + intros [_ [v V']]. congruence.
    + intros _. split; [exact N|]. now exists v.
    + intros _. now exists (assembled v p).
  - intros e. rewrite T. unfold beaconMissing. tauto.
Qed.

(** C2, amended.  On success, the blob-client sub-block is present whenever
    the parent chain is classified as layer 1; on a parent chain of another
    layer it is present exactly when a non-empty beacon endpoint was
    supplied. *)
Theorem blob_client_present_on_layer1 p config :
  prepare p = Return config ->
  (getParentChainLayer (parentChainId p) = 1 -> present (blobClient config))
  /\ (getParentChainLayer (parentChainId p) <> 1 ->
      (present (blobClient config)
       <-> exists url, parentChainBeaconRpcUrl p = Some url /\ url <> "")).
Proof.
  intros H. apply prepare_Return_inv in H as (N & v & _ & ->). split.
  - intros L1. apply present_blobClient_iff.
    destruct (parentChainBeaconRpcUrl p) as [[|c s]|] eqn:B.
    + elim N. split; auto.
    + exists (String c s). split; [reflexivity|discriminate].
    + elim N. split; auto.
  - intros _. apply present_blobClient_iff.
Qed.

(** C3, amended.  On success, the blob-client sub-block is present if and
    only if a non-empty beacon endpoint was supplied, and when present its
    beacon-url is the supplied endpoint verbatim. *)
Theorem blob_client_iff_beacon_supplied p config :
  prepare p = Return config ->
  (present (blobClient config)
   <-> exists url, parentChainBeaconRpcUrl p = Some url /\ url <> "")
  /\ (forall b, blobClient config = Some b ->
                parentChainBeaconRpcUrl p = Some (beacon_url b)).
Proof.
  intros H. apply prepare_Return_inv in H as (_ & v & _ & ->). split.
  - apply present_blobClient_iff.
  - intros b. rewrite assembled_blobClient.
    destruct (parentChainBeaconRpcUrl p) as [[|c s]|]; simpl;
      try discriminate.
    intros E. injection E as <-. reflexivity.
Qed.

(** C4.  On success, the disable-blob-reader flag is true exactly when the
    parent chain is not layer 1 and is not an Arbitrum chain; it is false
    on a layer-1 parent chain and on an Arbitrum parent chain. *)
Theorem disable_blob_reader_iff p config :
  prepare p = Return config ->
  (disableBlobReader config = true
   <-> getParentChainLayer (parentChainId p) <> 1
       /\ parentChainIsArbitrum (parentChainId p) = false)
  /\ (getParentChainLayer (parentChainId p) = 1 ->
      disableBlobReader config = false)
  /\ (parentChainIsArbitrum (parentChainId p) = true ->
      disableBlobReader config = false).
Proof.
  intros H. apply prepare_Return_inv in H as (_ & v & _ & ->).
  rewrite assembled_disableBlobReader.
  pose proof (getDisableBlobReader_true_iff (parentChainId p)) as T.
  split; [exact T|].
  destruct (getDisableBlobReader _ _ _); split; intros A; try reflexivity.
  - destruct T as [T _]. destruct (T eq_refl) as [T1 _]. contradiction.
  - destruct T as [T _]. destruct (T eq_refl) as [_ T2]. congruence.
Qed.

(** C5.  On success, the info block of the document reads back as an
    array of one entry, whose chain-id and parent-chain-id are the chain id
    of the input chain configuration and the input parent chain id.  The
    block is a string: it is read with [JSON.parse], of which the statement
    assumes that it undoes [JSON.stringify]. *)
Theorem chain_ids_recorded p config :
  (forall infoJson, JSON_parse (JSON_stringify infoJson) = Some infoJson) ->
  prepareNodeConfig getParentChainLayer parentChainIsArbitrum
    validateParentChain JSON_stringify p
  = Return config ->
  exists info,
    JSON_parse (chain_info_json (chain config)) = Some [info]
    /\ ci_chain_id info = chainId (chainConfig p)
    /\ ci_parent_chain_id info = parentChainId p.
Proof.
  intros RT H. apply prepare_Return_inv in H as (_ & v & _ & ->).
  exists (chainInfoOf parentChainIsArbitrum v p).
  rewrite assembled_chain. unfold stringifyInfoJson. simpl.
  rewrite RT. repeat split.
Qed.

(** C6.  On success, the data-availability sub-block is present if and only
    if the committee flag of the input chain configuration is true; when
    present, its rest-aggregator URL is the supplied [dasServerUrl], or
    [http://localhost] when none was supplied, followed by [:9877], and its
    rpc-aggregator assumed-honest parameter is 1. *)
Theorem data_availability_block p config :
  prepare p = Return config ->
  (present (dataAvailability config)
   <-> DataAvailabilityCommittee (arbitrum (chainConfig p)) = true)
  /\ (forall da, dataAvailability config = Some da ->
        rest_urls (da_rest_aggregator da)
        = [match dasServerUrl p with
           | Some url => url
           | None => "http://localhost"
           end ++ ":9877"]
        /\ rpc_assumed_honest (da_rpc_aggregator da) = 1).
Proof.
  intros H. apply prepare_Return_inv in H as (_ & v & _ & ->).
  rewrite assembled_dataAvailability. unfold present.
  destruct (DataAvailabilityCommittee (arbitrum (chainConfig p))).
  - split; [split; congruence|].
    intros da E. injection E as <-. split; reflexivity.
  - split; [split; congruence|]. discriminate.
Qed.

(** C7.  On success, the enable flag of the fallback-storage sub-block is
    the enable flag of the input fallback configuration; when it is true,
    the five storage fields of the output are those of the input and the
    discard-after-timeout flag is false. *)
Theorem fallback_block_copied p config :
  prepare p = Return config ->
  fs3_enable (fallbackBlock config) = enable (fallbackS3Config p)
  /\ (enable (fallbackS3Config p) = true ->
      fs3_access_key (fallbackBlock config) = accessKey (fallbackS3Config p)
      /\ fs3_secret_key (fallbackBlock config) = secretKey (fallbackS3Config p)
      /\ fs3_region (fallbackBlock config) = region (fallbackS3Config p)
      /\ fs3_object_prefix (fallbackBlock config)
         = objectPrefix (fallbackS3Config p)
      /\ fs3_bucket (fallbackBlock config) = bucket (fallbackS3Config p)
      /\ fs3_discard_after_timeout (fallbackBlock config) = Some false).
Proof.
  intros H. apply prepare_Return_inv in H as (_ & v & _ & ->).
  rewrite assembled_fallbackBlock.
  destruct (enable (fallbackS3Config p)); simpl.
  - repeat split.
  - split; [reflexivity|discriminate].
Qed.

(** C8.  On success, the private key of the batch-poster wallet and the one
    of the staker wallet are the corresponding input keys with a leading
    [0x] removed when the key starts with [0x], and unchanged otherwise. *)
Theorem wallet_keys_stripped p config :
  prepare p = Return config ->
  hex_marker_stripped (batchPosterPrivateKey p) (batchPosterKey config)
  /\ hex_marker_stripped (validatorPrivateKey p) (stakerKey config).
Proof.
  intros H. apply prepare_Return_inv in H as (_ & v & _ & ->).
  destruct (assembled_keys v p) as [-> ->].
  split; apply sanitizePrivateKey_strips.
Qed.

(** C9, amended.  An enabled fallback configuration is never validated:
    whatever its five storage fields hold, absent ones included, the
    derivation returns a document unless the beacon rule refuses the input
    or [validateParentChain] rejects the parent chain id, and the fallback
    sub-block of that document has enable true and carries each storage
    field as it was given, an absent one as absent. *)
Theorem enabled_fallback_not_validated p v :
  enable (fallbackS3Config p) = true ->
  ~ (getParentChainLayer (parentChainId p) = 1
     /\ (parentChainBeaconRpcUrl p = None
         \/ parentChainBeaconRpcUrl p = Some "")) ->
  validateParentChain (parentChainId p) = Return v ->
  exists config,
    prepare p = Return config
    /\ fs3_enable (fallbackBlock config) = true
    /\ fs3_access_key (fallbackBlock config) = accessKey (fallbackS3Config p)
    /\ fs3_secret_key (fallbackBlock config) = secretKey (fallbackS3Config p)
    /\ fs3_region (fallbackBlock config) = region (fallbackS3Config p)
    /\ fs3_object_prefix (fallbackBlock config)
       = objectPrefix (fallbackS3Config p)
    /\ fs3_bucket (fallbackBlock config) = bucket (fallbackS3Config p).
Proof.
  intros En N V. exists (assembled v p).
  split; [now apply prepare_accepted|].
  rewrite assembled_fallbackBlock, En. repeat split.
Qed.

(** C10.  Two inputs that differ only in [dasServerUrl] and whose committee
    flag is false have the same outcome. *)
Theorem dasServerUrl_unused_without_committee p q :
  differ_only_in_dasServerUrl p q ->
  DataAvailabilityCommittee (arbitrum (chainConfig p)) = false ->
  prepare p = prepare q.
Proof.
  unfold differ_only_in_dasServerUrl. intros D C.
  assert (Cq : DataAvailabilityCommittee (arbitrum (chainConfig q)) = false).
  { apply (f_equal chainConfig) in D. simpl in D. now rewrite <- D. }
  assert (erase : forall r,
             DataAvailabilityCommittee (arbitrum (chainConfig r)) = false ->
             prepare r = prepare (with_dasServerUrl r None)).
  { intros r Cr. unfold prepareNodeConfig, addFallbackS3, addDataAvailability,
      addBlobClient. simpl. rewrite Cr.
    destruct (validateParentChain (parentChainId r)); reflexivity. }
  rewrite (erase p C), (erase q Cq), D. reflexivity.
Qed.

End Properties.

(** ** The derivation on the sample inputs *)

Ltac by_sample thm p :=
  apply (thm unit sampleParentChainLayer sampleParentChainIsArbitrum
           sampleValidateParentChain sampleStringify p
           (sampleAssembledConfig p));
  reflexivity.

(** *** The stand-in parser undoes the stand-in serialiser *)

Lemma read_decimal_decimal (z : Z) : read_decimal (decimal z) = Some z.
Proof.
  unfold read_decimal, decimal. rewrite NilEmpty.isi. simpl.
  now rewrite DecimalZ.of_to.
Qed.

Lemma read_put_string (s k : string) : read_string (put_string s k) = Some (s, k).
Proof.
  induction s as [|c s IH]; simpl.
  - reflexivity.
  - now rewrite IH.
Qed.

Lemma read_put_number (z : Z) (k : string) :
  read_number (put_number z k) = Some (z, k).
Proof.
  unfold read_number, put_number.
  now rewrite read_put_string, read_decimal_decimal.
Qed.

Lemma read_put_boolean (b : bool) (k : string) :
  read_boolean (put_boolean b k) = Some (b, k).
Proof.
  unfold read_boolean, put_boolean. rewrite read_put_string.
  destruct b; reflexivity.
Qed.

Lemma read_put_entry (e : @ChainInfo unit) (k : string) :
  read_entry (put_entry e k) = Some (e, k).
Proof.
  unfold read_entry, put_entry, and_then.
  repeat first [rewrite read_put_number
               |rewrite read_put_boolean
               |rewrite read_put_string].
  destruct e as [? ? ? ? [? [? ? []] []] []]. reflexivity.
Qed.

Lemma read_put_entries (l : list (@ChainInfo unit)) (k : string) :
  read_entries (List.length l) (put_entries l k) = Some (l, k).
Proof.
  induction l as [|e l IH]; simpl.
  - reflexivity.
  - now rewrite read_put_entry, IH.
Qed.

Lemma read_put_count (n : nat) (k : string) :
  read_count (put_count n k) = Some (n, k).
Proof.
  induction n as [|n IH]; simpl.
  - reflexivity.
  - now rewrite IH.
Qed.

Lemma sampleParse_sampleStringify (infoJson : @NodeConfigChainInfoJson unit) :
  sampleParse (sampleStringify infoJson) = Some infoJson.
Proof.
  unfold sampleParse, sampleStringify.
  now rewrite read_put_count, read_put_entries.
Qed.

(** Scenario A of the specification: the document has neither a blob-client
    nor a data-availability sub-block, and its fallback block is disabled. *)
Example scenarioA_outcome :
  exists config,
    samplePrepareNodeConfig scenarioA = Return config
    /\ blobClient config = None
    /\ dataAvailability config = None
    /\ fs3_enable (fallbackBlock config) = false
    /\ batchPosterKey config = "aa11"
    /\ stakerKey config = "bb22".
Proof. eexists. split; [reflexivity|]. repeat split. Qed.

(** Scenario B of the specification: the derivation throws. *)
Example scenarioB_outcome :
  samplePrepareNodeConfig scenarioB = Throw MissingRequiredField.
Proof. reflexivity. Qed.

(** Scenario C of the specification. *)
Example scenarioC_outcome :
  exists config da,
    samplePrepareNodeConfig scenarioC = Return config
    /\ blobClient config = Some {| beacon_url := "https://beacon.example" |}
    /\ dataAvailability config = Some da
    /\ rest_urls (da_rest_aggregator da) = ["http://localhost:9877"]
    /\ rpc_assumed_honest (da_rpc_aggregator da) = 1
    /\ disableBlobReader config = false.
Proof. do 2 eexists. split; [reflexivity|]. repeat split. Qed.

(** Scenario D of the specification. *)
Example scenarioD_outcome :
  exists config,
    samplePrepareNodeConfig scenarioD = Return config
    /\ fallbackBlock config
       = {| fs3_enable := true;
            fs3_access_key := Some "AKIAEXAMPLE";
            fs3_bucket := Some "orbit-batches";
            fs3_object_prefix := Some "batches/";
            fs3_region := Some "eu-central-1";
            fs3_secret_key := Some "s3cr3t";
            fs3_discard_after_timeout := Some false |}.
Proof. eexists. split; reflexivity. Qed.

(** A parent chain id that [validateParentChain] rejects: the guard lets
    the input through and the derivation ends with the error of the
    check. *)
Example unsupported_parent_chain_outcome :
  samplePrepareNodeConfig beaconOnUnsupportedChain
  = Throw (mkError "Parent chain not supported: 10").
Proof. reflexivity. Qed.

(** The info block of scenario A, read back with the stand-in parser. *)
Example scenarioA_info_block :
  option_map (map (fun info => (ci_chain_id info, ci_parent_chain_id info)))
    (sampleParse (chain_info_json (chain (sampleAssembledConfig scenarioA))))
  = Some [(97400766948, 421614)].
Proof. reflexivity. Qed.

(** C1 as stated fails: on a layer-1 parent chain an empty beacon endpoint
    is supplied, and the derivation throws all the same. *)
Lemma empty_beacon_on_layer1_throws :
  ~ (samplePrepareNodeConfig emptyBeaconOnLayer1 = Throw MissingRequiredField
     <-> sampleParentChainLayer (parentChainId emptyBeaconOnLayer1) = 1
         /\ parentChainBeaconRpcUrl emptyBeaconOnLayer1 = None).
Proof.
  intros [F _]. destruct (F eq_refl) as [_ E]. discriminate E.
Qed.

(** C2 as stated fails: with a beacon endpoint the blob-client sub-block is
    present on a layer-2 parent chain. *)
Lemma beacon_on_layer2_has_blob_client :
  exists config,
    samplePrepareNodeConfig beaconOnLayer2 = Return config
    /\ ~ (present (blobClient config)
          <-> sampleParentChainLayer (parentChainId beaconOnLayer2) = 1).
Proof.
  eexists. split; [reflexivity|].
  intros [F _]. assert (P : present (blobClient
                                       (sampleAssembledConfig beaconOnLayer2))).
  { discriminate. }
  specialize (F P). discriminate F.
Qed.

(** Witness of C2: scenario C. *)
Lemma blob_client_present_on_layer1_witness :
  samplePrepareNodeConfig scenarioC = Return (sampleAssembledConfig scenarioC)
  /\ ((sampleParentChainLayer (parentChainId scenarioC) = 1 ->
       present (blobClient (sampleAssembledConfig scenarioC)))
      /\ (sampleParentChainLayer (parentChainId scenarioC) <> 1 ->
          (present (blobClient (sampleAssembledConfig scenarioC))
           <-> exists url,
                 parentChainBeaconRpcUrl scenarioC = Some url /\ url <> ""))).
Proof.
  split; [reflexivity|by_sample @blob_client_present_on_layer1 scenarioC].
Defined.

(** C3 as stated fails: the empty beacon endpoint is supplied on a layer-2
    parent chain, and the document has no blob-client sub-block. *)
Lemma empty_beacon_gives_no_blob_client :
  exists config,
    samplePrepareNodeConfig emptyBeaconOnLayer2 = Return config
    /\ ~ (present (blobClient config)
          <-> present (parentChainBeaconRpcUrl emptyBeaconOnLayer2)).
Proof.
  eexists. split; [reflexivity|].
  intros [_ F]. apply F; [discriminate|reflexivity].
Qed.

(** Witness of C3: scenario C. *)
Lemma blob_client_iff_beacon_supplied_witness :
  samplePrepareNodeConfig scenarioC = Return (sampleAssembledConfig scenarioC)
  /\ ((present (blobClient (sampleAssembledConfig scenarioC))
       <-> exists url,
             parentChainBeaconRpcUrl scenarioC = Some url /\ url <> "")
      /\ (forall b, blobClient (sampleAssembledConfig scenarioC) = Some b ->
                    parentChainBeaconRpcUrl scenarioC = Some (beacon_url b))).
Proof.
  split; [reflexivity|by_sample @blob_client_iff_beacon_supplied scenarioC].
Defined.

(** Witness of C4: the layer-2 Arbitrum parent chain of scenario A. *)
Lemma disable_blob_reader_iff_witness :
  samplePrepareNodeConfig scenarioA = Return (sampleAssembledConfig scenarioA)
  /\ ((disableBlobReader (sampleAssembledConfig scenarioA) = true
       <-> sampleParentChainLayer (parentChainId scenarioA) <> 1
           /\ sampleParentChainIsArbitrum (parentChainId scenarioA) = false)
      /\ (sampleParentChainLayer (parentChainId scenarioA) = 1 ->
          disableBlobReader (sampleAssembledConfig scenarioA) = false)
      /\ (sampleParentChainIsArbitrum (parentChainId scenarioA) = true ->
          disableBlobReader (sampleAssembledConfig scenarioA) = false)).
Proof.
  split; [reflexivity|by_sample @disable_blob_reader_iff scenarioA].
Defined.

(** Witness of C5: scenario A, read back with the stand-in parser. *)
Lemma chain_ids_recorded_witness :
  (forall infoJson, sampleParse (sampleStringify infoJson) = Some infoJson)
  /\ samplePrepareNodeConfig scenarioA = Return (sampleAssembledConfig scenarioA)
  /\ exists info,
       sampleParse (chain_info_json (chain (sampleAssembledConfig scenarioA)))
       = Some [info]
       /\ ci_chain_id info = 97400766948
       /\ ci_parent_chain_id info = 421614.
Proof.
  split; [exact sampleParse_sampleStringify|]. split; [reflexivity|].
  exact (chain_ids_recorded sampleParentChainLayer sampleParentChainIsArbitrum
           sampleValidateParentChain sampleStringify sampleParse scenarioA
           (sampleAssembledConfig scenarioA)
           sampleParse_sampleStringify eq_refl).
Defined.

(** Witness of C6: scenario C, whose committee flag is true. *)
Lemma data_availability_block_witness :
  samplePrepareNodeConfig scenarioC = Return (sampleAssembledConfig scenarioC)
  /\ ((present (dataAvailability (sampleAssembledConfig scenarioC))
       <-> DataAvailabilityCommittee (arbitrum (chainConfig scenarioC)) = true)
      /\ (forall da,
            dataAvailability (sampleAssembledConfig scenarioC) = Some da ->
            rest_urls (da_rest_aggregator da)
            = [match dasServerUrl scenarioC with
               | Some url => url
               | None => "http://localhost"
               end ++ ":9877"]
            /\ rpc_assumed_honest (da_rpc_aggregator da) = 1)).
Proof.
  split; [reflexivity|by_sample @data_availability_block scenarioC].
Defined.

(** Witness of C7: scenario D. *)
Lemma fallback_block_copied_witness :
  samplePrepareNodeConfig scenarioD = Return (sampleAssembledConfig scenarioD)
  /\ fs3_enable (fallbackBlock (sampleAssembledConfig scenarioD))
     = enable (fallbackS3Config scenarioD)
  /\ (enable (fallbackS3Config scenarioD) = true ->
      fs3_access_key (fallbackBlock (sampleAssembledConfig scenarioD))
      = accessKey (fallbackS3Config scenarioD)
      /\ fs3_secret_key (fallbackBlock (sampleAssembledConfig scenarioD))
         = secretKey (fallbackS3Config scenarioD)
      /\ fs3_region (fallbackBlock (sampleAssembledConfig scenarioD))
         = region (fallbackS3Config scenarioD)
      /\ fs3_object_prefix (fallbackBlock (sampleAssembledConfig scenarioD))
         = objectPrefix (fallbackS3Config scenarioD)
      /\ fs3_bucket (fallbackBlock (sampleAssembledConfig scenarioD))
         = bucket (fallbackS3Config scenarioD)
      /\ fs3_discard_after_timeout
           (fallbackBlock (sampleAssembledConfig scenarioD))
         = Some false).
Proof.
  split; [reflexivity|by_sample @fallback_block_copied scenarioD].
Defined.

(** Witness of C8: scenario A, with one prefixed and one bare key. *)
Lemma wallet_keys_stripped_witness :
  samplePrepareNodeConfig scenarioA = Return (sampleAssembledConfig scenarioA)
  /\ hex_marker_stripped (batchPosterPrivateKey scenarioA)
       (batchPosterKey (sampleAssembledConfig scenarioA))
  /\ hex_marker_stripped (validatorPrivateKey scenarioA)
       (stakerKey (sampleAssembledConfig scenarioA)).
Proof.
  split; [reflexivity|by_sample @wallet_keys_stripped scenarioA].
Defined.

(** C9 as stated fails: with an incomplete enabled fallback configuration
    the derivation still throws on a layer-1 parent chain without beacon
    endpoint. *)
Lemma incomplete_fallback_on_layer1_throws :
  enable (fallbackS3Config incompleteFallbackOnLayer1) = true
  /\ accessKey (fallbackS3Config incompleteFallbackOnLayer1) = None
  /\ bucket (fallbackS3Config incompleteFallbackOnLayer1) = None
  /\ ~ (exists config,
          samplePrepareNodeConfig incompleteFallbackOnLayer1 = Return config).
Proof.
  repeat split. intros [config H]. discriminate H.
Qed.

(** Witness of C9: an enabled fallback configuration without access key and
    bucket, on a layer-2 parent chain. *)
Lemma enabled_fallback_not_validated_witness :
  enable (fallbackS3Config incompleteFallbackOnLayer2) = true
  /\ ~ (sampleParentChainLayer (parentChainId incompleteFallbackOnLayer2) = 1
        /\ (parentChainBeaconRpcUrl incompleteFallbackOnLayer2 = None
            \/ parentChainBeaconRpcUrl incompleteFallbackOnLayer2 = Some ""))
  /\ sampleValidateParentChain (parentChainId incompleteFallbackOnLayer2)
     = Return 421614
  /\ exists config,
       samplePrepareNodeConfig incompleteFallbackOnLayer2 = Return config
       /\ fs3_enable (fallbackBlock config) = true
       /\ fs3_access_key (fallbackBlock config) = None
       /\ fs3_secret_key (fallbackBlock config) = Some "s3cr3t"
       /\ fs3_region (fallbackBlock config) = Some "eu-central-1"
       /\ fs3_object_prefix (fallbackBlock config) = Some "batches/"
       /\ fs3_bucket (fallbackBlock config) = None.
Proof.
  assert (N : ~ (sampleParentChainLayer
                   (parentChainId incompleteFallbackOnLayer2) = 1
                 /\ (parentChainBeaconRpcUrl incompleteFallbackOnLayer2 = None
                     \/ parentChainBeaconRpcUrl incompleteFallbackOnLayer2
                        = Some ""))).
  { intros [L _]. discriminate L. }
  split; [reflexivity|]. split; [exact N|]. split; [reflexivity|].
  exact (enabled_fallback_not_validated sampleParentChainLayer
           sampleParentChainIsArbitrum sampleValidateParentChain
           sampleStringify incompleteFallbackOnLayer2 421614 eq_refl N
           eq_refl).
Defined.

(** Witness of C10: scenario D with and without its [dasServerUrl]. *)
Lemma dasServerUrl_unused_without_committee_witness :
  differ_only_in_dasServerUrl scenarioD (with_dasServerUrl scenarioD None)
  /\ DataAvailabilityCommittee (arbitrum (chainConfig scenarioD)) = false
  /\ samplePrepareNodeConfig scenarioD
     = samplePrepareNodeConfig (with_dasServerUrl scenarioD None).
Proof.
  split; [reflexivity|]. split; [reflexivity|].
  apply (dasServerUrl_unused_without_committee sampleParentChainLayer
           sampleParentChainIsArbitrum sampleValidateParentChain
           sampleStringify scenarioD (with_dasServerUrl scenarioD None));
    reflexivity.
Defined.

(** * Further properties of the code *)

(** ** The private-key normalisation *)

Lemma length_0x (rest : string) :
  String.length ("0x" ++ rest) = (2 + String.length rest)%nat.
Proof. reflexivity. Qed.

(** [sanitizePrivateKey] leaves a key unchanged exactly when the key does
    not start with the lowercase marker [0x]; a key that starts with the
    uppercase [0X] is such a key, and a key that starts with [0x] loses
    exactly two characters. *)
Theorem sanitizePrivateKey_fixed_points (key : string) :
  (sanitizePrivateKey key = key <-> forall rest, key <> "0x" ++ rest)
  /\ (forall rest, key = "0X" ++ rest -> sanitizePrivateKey key = key)
  /\ (forall rest, key = "0x" ++ rest ->
        String.length key
        = (2 + String.length (sanitizePrivateKey key))%nat).
Proof.
  split; [split|split].
  - intros Fix rest ->. rewrite sanitizePrivateKey_prefixed in Fix.
    apply (f_equal String.length) in Fix. rewrite length_0x in Fix. lia.
  - apply sanitizePrivateKey_unprefixed.
  - intros rest ->. apply sanitizePrivateKey_unprefixed.
    intros rest' E. discriminate E.
  - intros rest ->. rewrite sanitizePrivateKey_prefixed. apply length_0x.
Qed.

(** ** The derivation, block by block *)

Section Blocks.

Context {ChainConfigOther : Type}.
Variable getParentChainLayer : ParentChainId -> Z.
Variable parentChainIsArbitrum : ParentChainId -> bool.
Variable validateParentChain : ParentChainId -> result ParentChainId.
Variable JSON_stringify : @NodeConfigChainInfoJson ChainConfigOther -> string.
Variable JSON_parse : string -> option (@NodeConfigChainInfoJson ChainConfigOther).

Local Abbreviation prepare :=
  (prepareNodeConfig getParentChainLayer parentChainIsArbitrum
     validateParentChain JSON_stringify).
Local Abbreviation assembled :=
  (assembledConfig getParentChainLayer parentChainIsArbitrum JSON_stringify).
Local Abbreviation validated p := (validateParentChain (parentChainId p)).
Local Abbreviation missing := (beaconMissing getParentChainLayer).

Implicit Types (p q : @PrepareNodeConfigParams ChainConfigOther).
Implicit Types (config : NodeConfig).

Ltac assembly_cases p :=
  unfold assembledConfig, addFallbackS3, addDataAvailability, addBlobClient,
    blobClient, dataAvailability, fallbackBlock, disableBlobReader,
    batchPosterKey, stakerKey;
  destruct (parentChainBeaconRpcUrl p) as [[|? ?]|];
  destruct (DataAvailabilityCommittee (arbitrum (chainConfig p)));
  destruct (enable (fallbackS3Config p)).

(** The parts of the document that none of the three assignments
    touches. *)
Lemma assembled_frame v p :
  chain (assembled v p)
  = chain (configLiteral getParentChainLayer parentChainIsArbitrum
             JSON_stringify v p)
  /\ http (assembled v p)
     = http (configLiteral getParentChainLayer parentChainIsArbitrum
               JSON_stringify v p)
  /\ execution (assembled v p)
     = execution (configLiteral getParentChainLayer parentChainIsArbitrum
                    JSON_stringify v p)
  /\ pc_connection (parent_chain (assembled v p))
     = {| connection_url := parentChainRpcUrl p |}.
Proof. assembly_cases p; repeat split. Qed.

Lemma prepare_disabled_fallback p :
  enable (fallbackS3Config p) = false ->
  prepare p = prepare (with_fallbackS3Config p fallbackDisabled).
Proof.
  intros En. unfold prepareNodeConfig, addFallbackS3, addDataAvailability,
    addBlobClient. simpl. rewrite En.
  destruct (validateParentChain (parentChainId p)); reflexivity.
Qed.

(** A disabled fallback configuration has no influence: two inputs that
    differ only in their fallback configurations, both disabled, have the
    same outcome, whatever the five storage fields hold. *)
Theorem fallback_fields_unused_when_disabled p q :
  differ_only_in_fallbackS3Config p q ->
  enable (fallbackS3Config p) = false ->
  enable (fallbackS3Config q) = false ->
  prepare p = prepare q.
Proof.
  unfold differ_only_in_fallbackS3Config. intros D Ep Eq.
  rewrite (prepare_disabled_fallback p Ep), (prepare_disabled_fallback q Eq).
  now rewrite D.
Qed.

(** The operational profile does not depend on the input: every document
    carries the same HTTP and execution blocks and the same sequencer,
    batch-poster, staker and Avail constants, whichever optional blocks were
    added. *)
Theorem fixed_profile p config :
  prepareNodeConfig getParentChainLayer parentChainIsArbitrum
    validateParentChain JSON_stringify p
  = Return config ->
  http config
  = {| http_addr := "0.0.0.0";
       http_port := 8449;
       http_vhosts := ["*"];
       http_corsdomain := ["*"];
       http_api := ["eth"; "net"; "web3"; "arb"; "debug"] |}
  /\ execution config
     = {| forwarding_target := "";
          exec_sequencer :=
            {| es_enable := true;
               es_max_tx_data_size := 85000;
               es_max_block_speed := "250ms" |};
          exec_caching := {| archive := true |} |}
  /\ node_sequencer (node config) = true
  /\ node_delayed_sequencer (node config)
     = {| ds_enable := true;
          ds_use_merge_finality := false;
          ds_finalize_distance := 1 |}
  /\ bp_max_size (node_batch_poster (node config)) = 90000
  /\ bp_enable (node_batch_poster (node config)) = true
  /\ staker_enable (node_staker (node config)) = true
  /\ staker_strategy (node_staker (node config)) = "MakeNodes"
  /\ no_sequencer_coordinator (node_dangerous (node config)) = true
  /\ avail_enable (node_avail (node config)) = true
  /\ avail_api_url (node_avail (node config)) = "wss://turing-rpc.avail.so/ws"
  /\ avail_timeout (node_avail (node config)) = "100s"
  /\ avail_bridge_config (node_avail (node config))
     = {| avail_bridge_api_url := "https://turing-bridge-api.fra.avail.so/";
          vectorx_address := "0xA712dfec48AF3a78419A8FF90fE8f97Ae74680F0";
          arbsepolia_rpc := "wss://sepolia-rollup.arbitrum.io/rpc" |}.
Proof.
  intros H. apply prepare_Return_inv in H as (_ & v & _ & ->).
  assembly_cases p; repeat split.
Qed.

(** The inputs that the document carries verbatim: the chain name, the
    parent-chain RPC URL, the Avail seed and the Avail application id; the
    connection URL survives the assignment of the blob-client block, the
    seed and the application id survive the replacement of the fallback
    block. *)
Theorem inputs_copied_verbatim p config :
  prepareNodeConfig getParentChainLayer parentChainIsArbitrum
    validateParentChain JSON_stringify p
  = Return config ->
  chain_name (chain config) = chainName p
  /\ connection_url (pc_connection (parent_chain config)) = parentChainRpcUrl p
  /\ avail_seed (node_avail (node config)) = availAddressSeed p
  /\ avail_app_id (node_avail (node config)) = availAppId p.
Proof.
  intros H. apply prepare_Return_inv in H as (_ & v & _ & ->).
  assembly_cases p; repeat split.
Qed.

(** When the data-availability block is present, it is enabled together
    with both of its aggregators, it names the sequencer inbox of the input
    and its parent-chain node URL is the connection URL of the same
    document. *)
Theorem data_availability_consistent p config :
  prepare p = Return config ->
  forall da, dataAvailability config = Some da ->
    da_enable da = true
    /\ rest_enable (da_rest_aggregator da) = true
    /\ rpc_enable (da_rpc_aggregator da) = true
    /\ da_sequencer_inbox_address da = sequencerInbox (coreContracts p)
    /\ da_parent_chain_node_url da
       = connection_url (pc_connection (parent_chain config)).
Proof.
  intros H da. apply prepare_Return_inv in H as (_ & v & _ & ->).
  destruct (assembled_frame v p) as (_ & _ & _ & ->).
  rewrite assembled_dataAvailability.
  destruct (DataAvailabilityCommittee (arbitrum (chainConfig p)));
    [|discriminate].
  intros E. injection E as <-. repeat split.
Qed.

(** The chain-info entry that the info block holds agrees with the rest of
    the document.  Read back with [JSON.parse], assumed to undo
    [JSON.stringify], the block is an array of one entry; the chain name of
    that entry is the name of the chain block, its chain id is the one of
    the chain configuration it embeds, the data-availability block is
    present exactly when that embedded configuration enables the
    committee, and then names the sequencer inbox of the entry. *)
Theorem chain_info_consistent p config :
  (forall infoJson, JSON_parse (JSON_stringify infoJson) = Some infoJson) ->
  prepare p = Return config ->
  exists info,
    JSON_parse (chain_info_json (chain config)) = Some [info]
    /\ ci_chain_name info = chain_name (chain config)
    /\ ci_chain_id info = chainId (ci_chain_config info)
    /\ (present (dataAvailability config)
        <-> DataAvailabilityCommittee (arbitrum (ci_chain_config info))
            = true)
    /\ (forall da, dataAvailability config = Some da ->
          da_sequencer_inbox_address da
          = ri_sequencer_inbox (ci_rollup info)).
Proof.
  intros RT H. apply prepare_Return_inv in H as (_ & v & _ & ->).
  exists (chainInfoOf parentChainIsArbitrum v p).
  destruct (assembled_frame v p) as (-> & _).
  rewrite assembled_dataAvailability. unfold present, stringifyInfoJson.
  simpl. rewrite RT.
  destruct (DataAvailabilityCommittee (arbitrum (chainConfig p)));
    repeat split; try congruence.
  intros da E. injection E as <-. reflexivity.
Qed.

(** The derivation does not reconcile the two blob settings: on a parent
    chain that [validateParentChain] accepts and that is neither layer 1
    nor an Arbitrum chain, a non-empty beacon endpoint yields a document
    that carries the blob-client block and disables the blob reader. *)
Theorem blob_client_with_disabled_reader p url v :
  validateParentChain (parentChainId p) = Return v ->
  getParentChainLayer (parentChainId p) <> 1 ->
  parentChainIsArbitrum (parentChainId p) = false ->
  parentChainBeaconRpcUrl p = Some url ->
  url <> "" ->
  exists config,
    prepare p = Return config
    /\ blobClient config = Some {| beacon_url := url |}
    /\ disableBlobReader config = true.
Proof.
  intros V L A B N. exists (assembled v p). split.
  - apply prepare_accepted; [|exact V]. intros [L1 _]. contradiction.
  - rewrite assembled_blobClient, assembled_disableBlobReader, B. split.
    + destruct url; [now elim N|reflexivity].
    + apply (proj2 (getDisableBlobReader_true_iff getParentChainLayer
                      parentChainIsArbitrum validateParentChain
                      (parentChainId p))).
      split; assumption.
Qed.

(** Where [validateParentChain] returns the id it is given, a document
    that disables the blob reader records its parent chain as not being an
    Arbitrum chain: the one entry of its info block, read back with
    [JSON.parse] (assumed to undo [JSON.stringify]), has
    parent-chain-is-arbitrum false. *)
Theorem disabled_reader_recorded_as_not_arbitrum p config :
  (forall infoJson, JSON_parse (JSON_stringify infoJson) = Some infoJson) ->
  validateParentChain (parentChainId p) = Return (parentChainId p) ->
  prepare p = Return config ->
  disableBlobReader config = true ->
  exists info,
    JSON_parse (chain_info_json (chain config)) = Some [info]
    /\ ci_parent_chain_is_arbitrum info = false.
Proof.
  intros RT V H D. apply prepare_Return_inv in H as (_ & v & V' & ->).
  rewrite V in V'. injection V' as <-.
  exists (chainInfoOf parentChainIsArbitrum (parentChainId p) p).
  destruct (assembled_frame (parentChainId p) p) as (-> & _).
  unfold stringifyInfoJson. simpl. rewrite RT. split; [reflexivity|].
  rewrite assembled_disableBlobReader in D.
  now destruct (proj1 (getDisableBlobReader_true_iff getParentChainLayer
                         parentChainIsArbitrum validateParentChain
                         (parentChainId p)) D).
Qed.

End Blocks.

(** ** The example script *)

Lemma is_undefined_literal_iff (v : option string) :
  is_undefined_literal v = true <-> v = Some "undefined".
Proof.
  destruct v as [s|]; simpl.
  - rewrite String.eqb_eq. split; congruence.
  - split; discriminate.
Qed.

Lemma validateForFallbackS3_scan (env : Env) :
  validateForFallbackS3 env
  = if existsb (fun name => is_undefined_literal (env name)) fallbackVariables
    then Throw (mkError fallbackDetailsMessage)
    else Return true.
Proof.
  unfold validateForFallbackS3. simpl.
  destruct (is_undefined_literal (env "FALLBACKS3_ACCESS_KEY"));
    destruct (is_undefined_literal (env "FALLBACKS3_SECRET_KEY"));
    destruct (is_undefined_literal (env "FALLBACKS3_REGION"));
    destruct (is_undefined_literal (env "FALLBACKS3_OBJECT_PREFIX"));
    destruct (is_undefined_literal (env "FALLBACKS3_BUCKET"));
    reflexivity.
Qed.

Lemma scan_true_iff (env : Env) :
  existsb (fun name => is_undefined_literal (env name)) fallbackVariables = true
  <-> exists name, In name fallbackVariables /\ env name = Some "undefined".
Proof.
  rewrite existsb_exists. split; intros (name & I & U); exists name;
    (split; [exact I|]); now apply is_undefined_literal_iff.
Qed.

Lemma scan_false_iff (env : Env) :
  existsb (fun name => is_undefined_literal (env name)) fallbackVariables
  = false
  <-> forall name, In name fallbackVariables -> env name <> Some "undefined".
Proof.
  split.
  - intros F name I U.
    assert (T : existsb (fun name => is_undefined_literal (env name))
                  fallbackVariables = true).
    { apply scan_true_iff. now exists name. }
    congruence.
  - intros A.
    destruct (existsb _ fallbackVariables) eqn:E; [|reflexivity].
    apply scan_true_iff in E as (name & I & U). now elim (A name I).
Qed.

(** [validateForFallbackS3] throws exactly when one of the five variables
    holds the string [undefined]; otherwise it returns [true], for variables
    that are not set as well; it never returns [false]. *)
Theorem validateForFallbackS3_outcome (env : Env) :
  (validateForFallbackS3 env = Throw (mkError fallbackDetailsMessage)
   <-> exists name, In name fallbackVariables /\ env name = Some "undefined")
  /\ (validateForFallbackS3 env = Return true
      <-> forall name,
            In name fallbackVariables -> env name <> Some "undefined")
  /\ validateForFallbackS3 env <> Return false.
Proof.
  rewrite validateForFallbackS3_scan, <- scan_true_iff, <- scan_false_iff.
  destruct (existsb _ fallbackVariables); repeat split;
    try discriminate; try reflexivity.
Qed.

Lemma lower_ascii_t (c : ascii) :
  lower_ascii c = "t"%char <-> c = "t"%char \/ c = "T"%char.
Proof.
  destruct c as [[] [] [] [] [] [] [] []]; vm_compute;
    split; intros H; try discriminate H; auto;
    destruct H as [H|H]; discriminate H.
Qed.

Lemma lower_ascii_r (c : ascii) :
  lower_ascii c = "r"%char <-> c = "r"%char \/ c = "R"%char.
Proof.
  destruct c as [[] [] [] [] [] [] [] []]; vm_compute;
    split; intros H; try discriminate H; auto;
    destruct H as [H|H]; discriminate H.
Qed.

Lemma lower_ascii_u (c : ascii) :
  lower_ascii c = "u"%char <-> c = "u"%char \/ c = "U"%char.
Proof.
  destruct c as [[] [] [] [] [] [] [] []]; vm_compute;
    split; intros H; try discriminate H; auto;
    destruct H as [H|H]; discriminate H.
Qed.

Lemma lower_ascii_e (c : ascii) :
  lower_ascii c = "e"%char <-> c = "e"%char \/ c = "E"%char.
Proof.
  destruct c as [[] [] [] [] [] [] [] []]; vm_compute;
    split; intros H; try discriminate H; auto;
    destruct H as [H|H]; discriminate H.
Qed.

Lemma toLowerCase_true_iff (s : string) :
  toLowerCase s = "true" <-> spells_true s.
Proof.
  split.
  - intros H. destruct s as [|c1 [|c2 [|c3 [|c4 [|c5 s]]]]];
      try discriminate H.
    simpl in H. injection H as H1 H2 H3 H4.
    exists c1, c2, c3, c4. split; [reflexivity|].
    rewrite <- lower_ascii_t, <- lower_ascii_r, <- lower_ascii_u,
      <- lower_ascii_e. auto.
  - intros (c1 & c2 & c3 & c4 & -> & H1 & H2 & H3 & H4). simpl.
    apply lower_ascii_t in H1. apply lower_ascii_r in H2.
    apply lower_ascii_u in H3. apply lower_ascii_e in H4.
    now rewrite H1, H2, H3, H4.
Qed.

(** The script asks for fallback storage exactly when [FALLBACKS3_ENABLE]
    is set to [true] in some mix of upper and lower case; no other value
    does, and neither does an unset variable. *)
Theorem fallbackRequested_iff (env : Env) :
  fallbackRequested env = true
  <-> exists s, env "FALLBACKS3_ENABLE" = Some s /\ spells_true s.
Proof.
  unfold fallbackRequested. destruct (env "FALLBACKS3_ENABLE") as [s|].
  - rewrite String.eqb_eq, toLowerCase_true_iff. split.
    + intros H. now exists s.
    + intros (s' & E & H). now injection E as ->.
  - split; [discriminate|]. intros (s & E & _). discriminate.
Qed.

(** The fallback configuration of the script: without a request it is the
    disabled one and the five variables are not inspected; with a request
    the script throws exactly when one of the five variables holds the
    string [undefined], and otherwise builds the enabled configuration from
    the five lookups as they are. *)
Theorem mainFallbackS3Config_outcome (env : Env) :
  (fallbackRequested env = false ->
   mainFallbackS3Config env = Return fallbackDisabled)
  /\ (fallbackRequested env = true ->
      (mainFallbackS3Config env = Throw (mkError fallbackDetailsMessage)
       <-> exists name,
             In name fallbackVariables /\ env name = Some "undefined")
      /\ ((forall name,
             In name fallbackVariables -> env name <> Some "undefined") ->
          mainFallbackS3Config env
          = Return
              {| enable := true;
                 accessKey := env "FALLBACKS3_ACCESS_KEY";
                 bucket := env "FALLBACKS3_BUCKET";
                 objectPrefix := env "FALLBACKS3_OBJECT_PREFIX";
                 region := env "FALLBACKS3_REGION";
                 secretKey := env "FALLBACKS3_SECRET_KEY" |})).
Proof.
  unfold mainFallbackS3Config. split; intros R; rewrite R; [reflexivity|].
  rewrite validateForFallbackS3_scan, <- scan_true_iff, <- scan_false_iff.
  destruct (existsb _ fallbackVariables); repeat split;
    try discriminate; try reflexivity.
Qed.

Section Script.

Context {ChainConfigOther : Type}.
Variable getParentChainLayer : ParentChainId -> Z.
Variable parentChainIsArbitrum : ParentChainId -> bool.
Variable validateParentChain : ParentChainId -> result ParentChainId.
Variable JSON_stringify : @NodeConfigChainInfoJson ChainConfigOther -> string.
Variable JSON_parse : string -> option (@NodeConfigChainInfoJson ChainConfigOther).

Local Abbreviation prepare :=
  (prepareNodeConfig getParentChainLayer parentChainIsArbitrum
     validateParentChain JSON_stringify).
Local Abbreviation assembled :=
  (assembledConfig getParentChainLayer parentChainIsArbitrum JSON_stringify).
Local Abbreviation validated p := (validateParentChain (parentChainId p)).

Implicit Types (p : @PrepareNodeConfigParams ChainConfigOther).
Implicit Types (config : NodeConfig).

(** From the environment to the document: when the input carries the
    fallback configuration that the script built, the fallback block is
    enabled exactly when the script was asked for fallback storage, and it
    then holds the five lookups of the environment. *)
Theorem script_fallback_reaches_document (env : Env) p config :
  mainFallbackS3Config env = Return (fallbackS3Config p) ->
  prepare p = Return config ->
  fs3_enable (fallbackBlock config) = fallbackRequested env
  /\ (fallbackRequested env = true ->
      fs3_access_key (fallbackBlock config) = env "FALLBACKS3_ACCESS_KEY"
      /\ fs3_secret_key (fallbackBlock config) = env "FALLBACKS3_SECRET_KEY"
      /\ fs3_region (fallbackBlock config) = env "FALLBACKS3_REGION"
      /\ fs3_object_prefix (fallbackBlock config)
         = env "FALLBACKS3_OBJECT_PREFIX"
      /\ fs3_bucket (fallbackBlock config) = env "FALLBACKS3_BUCKET").
Proof.
  intros F H. apply prepare_Return_inv in H as (_ & v & _ & ->).
  rewrite assembled_fallbackBlock.
  unfold mainFallbackS3Config in F.
  destruct (fallbackRequested env).
  - destruct (validateForFallbackS3_outcome env) as (_ & _ & NF).
    destruct (validateForFallbackS3 env) as [e|[|]].
    + discriminate F.
    + injection F as <-. simpl. split; [reflexivity|].
      intros _. repeat split.
    + now elim NF.
  - injection F as <-. simpl. split; [reflexivity|discriminate].
Qed.

(** Variables that are not set pass the validation of the script: with a
    request for fallback storage and none of the five variables set, the
    script builds an enabled configuration without any storage field, and
    every document that the derivation returns for an input with that
    configuration has an enabled fallback block whose five fields are
    absent. *)
Theorem unset_fallback_variables_reach_document (env : Env) p config :
  fallbackRequested env = true ->
  (forall name, In name fallbackVariables -> env name = None) ->
  mainFallbackS3Config env = Return fallbackBare
  /\ (fallbackS3Config p = fallbackBare ->
      prepare p = Return config ->
      fallbackBlock config
      = {| fs3_enable := true;
           fs3_access_key := None;
           fs3_bucket := None;
           fs3_object_prefix := None;
           fs3_region := None;
           fs3_secret_key := None;
           fs3_discard_after_timeout := Some false |}).
Proof.
  intros R U. split.
  - destruct (mainFallbackS3Config_outcome env) as [_ O].
    destruct (O R) as [_ Build]. rewrite Build.
    + unfold fallbackBare. repeat rewrite U; simpl; auto 6.
    + intros name I. rewrite (U name I). discriminate.
  - intros F H. apply prepare_Return_inv in H as (_ & v & _ & ->).
    rewrite assembled_fallbackBlock, F. reflexivity.
Qed.

(** For an input whose beacon endpoint was chosen as the script chooses it,
    the blob-client block of the document is present exactly when the
    parent chain is classified as layer 1. *)
Theorem script_beacon_matches_layer (env : Env) p config :
  parentChainBeaconRpcUrl p
  = mainBeaconRpcUrl getParentChainLayer env (parentChainId p) ->
  prepare p = Return config ->
  (present (blobClient config) <-> getParentChainLayer (parentChainId p) = 1).
Proof.
  intros B H. apply prepare_Return_inv in H as (N & v & _ & ->).
  rewrite present_blobClient_iff. unfold mainBeaconRpcUrl in B.
  destruct (Z.eqb_spec (getParentChainLayer (parentChainId p)) 1) as [L|L].
  - split; [auto|]. intros _.
    destruct (parentChainBeaconRpcUrl p) as [[|c s]|] eqn:P.
    + elim N. split; auto.
    + exists (String c s). split; [reflexivity|discriminate].
    + elim N. split; auto.
  - split; [|contradiction]. intros (url & P & _). congruence.
Qed.

(** For such an input the derivation throws the missing-beacon error
    exactly when the parent chain is classified as layer 1 and
    [ETHEREUM_BEACON_RPC_URL] is not set or empty ([validateParentChain]
    raising that very error apart); on a parent chain of another layer the
    variable is not read, and no returned document has a blob-client
    block. *)
Theorem script_beacon_failure (env : Env) p :
  parentChainBeaconRpcUrl p
  = mainBeaconRpcUrl getParentChainLayer env (parentChainId p) ->
  (prepare p = Throw MissingRequiredField
   <-> (getParentChainLayer (parentChainId p) = 1
        /\ (env "ETHEREUM_BEACON_RPC_URL" = None
            \/ env "ETHEREUM_BEACON_RPC_URL" = Some ""))
       \/ validateParentChain (parentChainId p) = Throw MissingRequiredField)
  /\ (getParentChainLayer (parentChainId p) <> 1 ->
      parentChainBeaconRpcUrl p = None
      /\ forall config, prepare p = Return config -> blobClient config = None).
Proof.
  intros B. unfold mainBeaconRpcUrl in B. split.
  - destruct (prepare_cases getParentChainLayer parentChainIsArbitrum
                validateParentChain JSON_stringify p)
      as [[M E]|[(e & N & V & E)|(v & N & V & E)]];
      rewrite E; unfold beaconMissing in *.
    + destruct M as [L M]. rewrite B in M.
      rewrite (proj2 (Z.eqb_eq _ _) L) in M. split; auto.
    + split.
      * intros H. injection H as ->. auto.
      * intros [[L M]|V']; [|congruence]. elim N. split; [exact L|].
        rewrite B, (proj2 (Z.eqb_eq _ _) L). exact M.
    + split; [discriminate|].
      intros [[L M]|V']; [|congruence]. elim N. split; [exact L|].
      rewrite B, (proj2 (Z.eqb_eq _ _) L). exact M.
  - intros NL. rewrite (proj2 (Z.eqb_neq _ _) NL) in B. split; [exact B|].
    intros config H. apply prepare_Return_inv in H as (_ & v & _ & ->).
    now rewrite assembled_blobClient, B.
Qed.

End Script.

(** ** The further properties on the sample inputs *)

(** The script on the sample environments. *)
Example script_region_only :
  mainFallbackS3Config envFallbackRegionOnly
  = Return {| enable := true;
              accessKey := None;
              bucket := None;
              objectPrefix := None;
              region := Some "eu-central-1";
              secretKey := None |}.
Proof. reflexivity. Qed.

Example script_undefined_bucket :
  mainFallbackS3Config envFallbackUndefinedBucket
  = Throw (mkError fallbackDetailsMessage).
Proof. reflexivity. Qed.

(** Scenario A against the same input with a disabled fallback
    configuration that still carries credentials. *)
Lemma fallback_fields_unused_when_disabled_witness :
  differ_only_in_fallbackS3Config scenarioA
    (with_fallbackS3Config scenarioA
       {| enable := false;
          accessKey := Some "AKIAEXAMPLE";
          bucket := Some "orbit-batches";
          objectPrefix := None;
          region := None;
          secretKey := Some "s3cr3t" |})
  /\ samplePrepareNodeConfig scenarioA
     = samplePrepareNodeConfig
         (with_fallbackS3Config scenarioA
            {| enable := false;
               accessKey := Some "AKIAEXAMPLE";
               bucket := Some "orbit-batches";
               objectPrefix := None;
               region := None;
               secretKey := Some "s3cr3t" |}).
Proof.
  split; [reflexivity|].
  apply (fallback_fields_unused_when_disabled sampleParentChainLayer
           sampleParentChainIsArbitrum sampleValidateParentChain
           sampleStringify scenarioA); reflexivity.
Defined.

(** The fixed profile on the input with every optional block. *)
Lemma fixed_profile_witness :
  samplePrepareNodeConfig committeeWithServer
  = Return (sampleAssembledConfig committeeWithServer)
  /\ http_port (http (sampleAssembledConfig committeeWithServer)) = 8449
  /\ es_max_tx_data_size
       (exec_sequencer (execution (sampleAssembledConfig committeeWithServer)))
     = 85000.
Proof.
  split; [reflexivity|].
  destruct (fixed_profile sampleParentChainLayer sampleParentChainIsArbitrum
              sampleValidateParentChain sampleStringify committeeWithServer
              (sampleAssembledConfig committeeWithServer) eq_refl)
    as (H & E & _).
  rewrite H, E. split; reflexivity.
Defined.

Lemma inputs_copied_verbatim_witness :
  samplePrepareNodeConfig committeeWithServer
  = Return (sampleAssembledConfig committeeWithServer)
  /\ chain_name (chain (sampleAssembledConfig committeeWithServer))
     = chainName committeeWithServer
  /\ connection_url
       (pc_connection (parent_chain (sampleAssembledConfig committeeWithServer)))
     = parentChainRpcUrl committeeWithServer
  /\ avail_seed (node_avail (node (sampleAssembledConfig committeeWithServer)))
     = availAddressSeed committeeWithServer
  /\ avail_app_id
       (node_avail (node (sampleAssembledConfig committeeWithServer)))
     = availAppId committeeWithServer.
Proof.
  split; [reflexivity|by_sample @inputs_copied_verbatim committeeWithServer].
Defined.

Lemma data_availability_consistent_witness :
  samplePrepareNodeConfig committeeWithServer
  = Return (sampleAssembledConfig committeeWithServer)
  /\ forall da,
       dataAvailability (sampleAssembledConfig committeeWithServer) = Some da ->
       da_enable da = true
       /\ rest_enable (da_rest_aggregator da) = true
       /\ rpc_enable (da_rpc_aggregator da) = true
       /\ da_sequencer_inbox_address da
          = sequencerInbox (coreContracts committeeWithServer)
       /\ da_parent_chain_node_url da
          = connection_url
              (pc_connection
                 (parent_chain (sampleAssembledConfig committeeWithServer))).
Proof.
  split; [reflexivity|
          by_sample @data_availability_consistent committeeWithServer].
Defined.

Lemma chain_info_consistent_witness :
  (forall infoJson, sampleParse (sampleStringify infoJson) = Some infoJson)
  /\ samplePrepareNodeConfig committeeWithServer
     = Return (sampleAssembledConfig committeeWithServer)
  /\ exists info,
       sampleParse
         (chain_info_json (chain (sampleAssembledConfig committeeWithServer)))
       = Some [info]
       /\ ci_chain_name info
          = chain_name (chain (sampleAssembledConfig committeeWithServer))
       /\ ci_chain_id info = chainId (ci_chain_config info)
       /\ (present (dataAvailability
                      (sampleAssembledConfig committeeWithServer))
           <-> DataAvailabilityCommittee (arbitrum (ci_chain_config info))
               = true)
       /\ (forall da,
             dataAvailability (sampleAssembledConfig committeeWithServer)
             = Some da ->
             da_sequencer_inbox_address da
             = ri_sequencer_inbox (ci_rollup info)).
Proof.
  split; [exact sampleParse_sampleStringify|]. split; [reflexivity|].
  exact (chain_info_consistent sampleParentChainLayer
           sampleParentChainIsArbitrum sampleValidateParentChain
           sampleStringify sampleParse committeeWithServer
           (sampleAssembledConfig committeeWithServer)
           sampleParse_sampleStringify eq_refl).
Defined.

Lemma blob_client_with_disabled_reader_witness :
  sampleValidateParentChain (parentChainId beaconOnForeignLayer2) = Return 8453
  /\ sampleParentChainLayer (parentChainId beaconOnForeignLayer2) <> 1
  /\ sampleParentChainIsArbitrum (parentChainId beaconOnForeignLayer2) = false
  /\ parentChainBeaconRpcUrl beaconOnForeignLayer2
     = Some "https://beacon.example"
  /\ "https://beacon.example" <> ""
  /\ exists config,
       samplePrepareNodeConfig beaconOnForeignLayer2 = Return config
       /\ blobClient config = Some {| beacon_url := "https://beacon.example" |}
       /\ disableBlobReader config = true.
Proof.
  assert (L : sampleParentChainLayer (parentChainId beaconOnForeignLayer2)
              <> 1) by discriminate.
  assert (N : "https://beacon.example" <> "") by discriminate.
  split; [reflexivity|].
  split; [exact L|]. split; [reflexivity|]. split; [reflexivity|].
  split; [exact N|].
  exact (blob_client_with_disabled_reader sampleParentChainLayer
           sampleParentChainIsArbitrum sampleValidateParentChain
           sampleStringify beaconOnForeignLayer2 "https://beacon.example"
           8453 eq_refl L eq_refl eq_refl N).
Defined.

Lemma disabled_reader_recorded_as_not_arbitrum_witness :
  (forall infoJson, sampleParse (sampleStringify infoJson) = Some infoJson)
  /\ sampleValidateParentChain (parentChainId beaconOnForeignLayer2)
     = Return (parentChainId beaconOnForeignLayer2)
  /\ samplePrepareNodeConfig beaconOnForeignLayer2
     = Return (sampleAssembledConfig beaconOnForeignLayer2)
  /\ disableBlobReader (sampleAssembledConfig beaconOnForeignLayer2) = true
  /\ exists info,
       sampleParse
         (chain_info_json
            (chain (sampleAssembledConfig beaconOnForeignLayer2)))
       = Some [info]
       /\ ci_parent_chain_is_arbitrum info = false.
Proof.
  split; [exact sampleParse_sampleStringify|].
  split; [reflexivity|]. split; [reflexivity|]. split; [reflexivity|].
  exact (disabled_reader_recorded_as_not_arbitrum sampleParentChainLayer
           sampleParentChainIsArbitrum sampleValidateParentChain
           sampleStringify sampleParse beaconOnForeignLayer2
           (sampleAssembledConfig beaconOnForeignLayer2)
           sampleParse_sampleStringify eq_refl eq_refl eq_refl).
Defined.

Lemma script_fallback_reaches_document_witness :
  mainFallbackS3Config envFallbackBare
  = Return (fallbackS3Config bareFallbackOnLayer2)
  /\ samplePrepareNodeConfig bareFallbackOnLayer2
     = Return (sampleAssembledConfig bareFallbackOnLayer2)
  /\ fs3_enable (fallbackBlock (sampleAssembledConfig bareFallbackOnLayer2))
     = fallbackRequested envFallbackBare.
Proof.
  split; [reflexivity|]. split; [reflexivity|].
  exact (proj1 (script_fallback_reaches_document sampleParentChainLayer
                  sampleParentChainIsArbitrum sampleValidateParentChain
                  sampleStringify envFallbackBare bareFallbackOnLayer2
                  (sampleAssembledConfig bareFallbackOnLayer2)
                  eq_refl eq_refl)).
Defined.

Lemma envFallbackBare_unset (name : string) :
  In name fallbackVariables -> envFallbackBare name = None.
Proof.
  intros I. simpl in I.
  destruct I as [<-|[<-|[<-|[<-|[<-|[]]]]]]; reflexivity.
Defined.

Lemma unset_fallback_variables_reach_document_witness :
  fallbackRequested envFallbackBare = true
  /\ (forall name, In name fallbackVariables -> envFallbackBare name = None)
  /\ mainFallbackS3Config envFallbackBare = Return fallbackBare
  /\ fallbackS3Config bareFallbackOnLayer2 = fallbackBare
  /\ samplePrepareNodeConfig bareFallbackOnLayer2
     = Return (sampleAssembledConfig bareFallbackOnLayer2)
  /\ fallbackBlock (sampleAssembledConfig bareFallbackOnLayer2)
     = {| fs3_enable := true;
          fs3_access_key := None;
          fs3_bucket := None;
          fs3_object_prefix := None;
          fs3_region := None;
          fs3_secret_key := None;
          fs3_discard_after_timeout := Some false |}.
Proof.
  split; [reflexivity|]. split; [exact envFallbackBare_unset|].
  destruct (unset_fallback_variables_reach_document sampleParentChainLayer
              sampleParentChainIsArbitrum sampleValidateParentChain
              sampleStringify envFallbackBare bareFallbackOnLayer2
              (sampleAssembledConfig bareFallbackOnLayer2)
              eq_refl envFallbackBare_unset) as [Built Block].
  split; [exact Built|]. split; [reflexivity|]. split; [reflexivity|].
  exact (Block eq_refl eq_refl).
Defined.

Lemma script_beacon_matches_layer_witness :
  parentChainBeaconRpcUrl scenarioC
  = mainBeaconRpcUrl sampleParentChainLayer envBeacon (parentChainId scenarioC)
  /\ samplePrepareNodeConfig scenarioC
     = Return (sampleAssembledConfig scenarioC)
  /\ (present (blobClient (sampleAssembledConfig scenarioC))
      <-> sampleParentChainLayer (parentChainId scenarioC) = 1).
Proof.
  split; [reflexivity|]. split; [reflexivity|].
  exact (script_beacon_matches_layer sampleParentChainLayer
           sampleParentChainIsArbitrum sampleValidateParentChain
           sampleStringify envBeacon scenarioC
           (sampleAssembledConfig scenarioC) eq_refl eq_refl).
Defined.

Lemma script_beacon_failure_witness :
  parentChainBeaconRpcUrl scenarioB
  = mainBeaconRpcUrl sampleParentChainLayer envFallbackBare
      (parentChainId scenarioB)
  /\ (samplePrepareNodeConfig scenarioB = Throw MissingRequiredField
      <-> (sampleParentChainLayer (parentChainId scenarioB) = 1
           /\ (envFallbackBare "ETHEREUM_BEACON_RPC_URL" = None
               \/ envFallbackBare "ETHEREUM_BEACON_RPC_URL" = Some ""))
          \/ sampleValidateParentChain (parentChainId scenarioB)
             = Throw MissingRequiredField).
Proof.
  split; [reflexivity|].
  exact (proj1 (script_beacon_failure sampleParentChainLayer
                  sampleParentChainIsArbitrum sampleValidateParentChain
                  sampleStringify envFallbackBare scenarioB eq_refl)).
Defined.
